(** * autograde: literal extraction and rule-driven validation of lab notebooks

    A shallow embedding of [autograde/common.py] and [autograde/grade.py].

    Conventions of the embedding.
    - Python [str] is [string]; text is ASCII.
    - A Python [float] in the data is a [pyfloat]: the exact rational value
      of a finite double, an infinity or a NaN, compared as doubles compare.
      [float(n)] of an int rounds to the nearest double (ties to even) and
      raises [OverflowError] beyond the double range; [int(x)] truncates and
      raises on an infinity or a NaN. Only the arithmetic of the score
      (a few multiples of 0.05) is idealised as exact rational arithmetic.
    - The values [ast.literal_eval] can return are the inductive [pyval];
      the keys of a [dict] are strings (the validators only ever look up
      string keys).
    - The messages built with f-strings are the constructors of [msg], each
      carrying the data its text is formatted from.
    - A Python exception is [Raise]; a normal return is [Ok].
    - [ast.literal_eval] and the regular-expression engine behind a
      user-supplied pattern are library code: they are Section variables. *)

From Stdlib Require Import QArith Ascii String.
From stdpp Require Import gmap strings list sorting.

Local Open Scope string_scope.
Local Open Scope list_scope.

(** ** Exceptions *)

Inductive pyexn :=
| AttributeError
| TypeError
| OverflowError
| ValueError
| ReError.

Inductive res (A : Type) :=
| Ok (a : A)
| Raise (e : pyexn).
Arguments Ok {A} a.
Arguments Raise {A} e.

#[global] Instance res_ret : MRet res := fun _ a => Ok a.
#[global] Instance res_bind : MBind res := fun _ _ f m =>
  match m with
  | Ok a => f a
  | Raise e => Raise e
  end.

(** ** Floats *)

(** A double: the exact value of a finite one, an infinity with its sign
    ([1e999] evaluates to one), or a NaN. *)
Inductive pyfloat :=
| FFinite (q : Q)
| FInf (negative : bool)
| FNaN.

(** [a <= b] on doubles: false as soon as one side is a NaN. *)
Definition float_leb (a b : pyfloat) : bool :=
  match a, b with
  | FNaN, _ | _, FNaN => false
  | FInf true, _ => true
  | _, FInf false => true
  | FInf false, _ => false
  | _, FInf true => false
  | FFinite x, FFinite y => Qle_bool x y
  end.

(** [x != 0.0] *)
Definition float_nonzero (a : pyfloat) : bool :=
  match a with
  | FFinite q => negb (Qeq_bool q 0)
  | _ => true
  end.

(** The integer nearest to [z] that a double represents: [z] itself up to
    53 bits, else [z] rounded to its 53 leading bits, a tie going to the even
    neighbour. *)
Definition round_to_double (z : Z) : Z :=
  let a := Z.abs z in
  let n := (Z.log2 a + 1)%Z in
  if (n <=? 53)%Z then z
  else
    let sh := (n - 53)%Z in
    let q := Z.shiftr a sh in
    let rest := (a - Z.shiftl q sh)%Z in
    let half := Z.shiftl 1 (sh - 1) in
    let q' := if (half <? rest)%Z || ((rest =? half)%Z && Z.odd q)
              then (q + 1)%Z else q in
    (Z.sgn z * Z.shiftl q' sh)%Z.

(** [float(z)] for an int [z]: [OverflowError] when the nearest double
    would be 2^1024 or more in magnitude. *)
Definition float_of_int (z : Z) : res pyfloat :=
  let r := round_to_double z in
  if (Z.shiftl 1 1024 <=? Z.abs r)%Z then Raise OverflowError
  else Ok (FFinite (inject_Z r)).

(** ** Python values *)

#[warnings="-register-all"]
Inductive pyval :=
| VNone
| VEllipsis
| VBool (b : bool)
| VInt (z : Z)
| VFloat (f : pyfloat)
| VComplex (re im : pyfloat)
| VStr (s : string)
| VBytes (s : string)
| VList (l : list pyval)
| VTuple (l : list pyval)
| VSet (l : list pyval)
| VDict (d : gmap string pyval).

(** [bool(v)]: Python truthiness. *)
Definition truthy (v : pyval) : bool :=
  match v with
  | VNone => false
  | VEllipsis => true
  | VBool b => b
  | VInt z => negb (z =? 0)%Z
  | VFloat f => float_nonzero f
  | VComplex re im => float_nonzero re || float_nonzero im
  | VStr s | VBytes s => negb (s =? "")
  | VList l | VTuple l | VSet l => match l with [] => false | _ => true end
  | VDict d => match map_to_list d with [] => false | _ => true end
  end.

(** [hash(v)] succeeds: lists, sets and dicts are unhashable, a tuple is
    hashable when its elements are. *)
Fixpoint hashable (v : pyval) : bool :=
  match v with
  | VList _ | VSet _ | VDict _ => false
  | VTuple l => forallb hashable l
  | _ => true
  end.

(** [float(v)] on the values that pass [is_number] (and on booleans); the
    code calls it on nothing else, and the other values are given the
    [TypeError] of [float(None)]. *)
Definition py_float (v : pyval) : res pyfloat :=
  match v with
  | VInt z => float_of_int z
  | VFloat f => Ok f
  | VBool b => Ok (FFinite (if b then 1 else 0))
  | _ => Raise TypeError
  end.

(** [int(v)] on the values that pass [is_number] (and on booleans):
    truncation towards zero, [OverflowError] on an infinity, [ValueError] on
    a NaN. *)
Definition py_int (v : pyval) : res Z :=
  match v with
  | VInt z => Ok z
  | VFloat (FFinite q) => Ok (Z.quot (Qnum q) (Zpos (Qden q)))
  | VFloat (FInf _) => Raise OverflowError
  | VFloat FNaN => Raise ValueError
  | VBool b => Ok (if b then 1 else 0)%Z
  | _ => Raise TypeError
  end.

(** The sentinel [{"__parse_error__": True}]. *)
Definition parse_error_sentinel : pyval :=
  VDict {[ "__parse_error__" := VBool true ]}.

(** ** Text helpers: the [str] methods the code uses *)

Definition newline : ascii := ascii_of_nat 10.
Definition space : ascii := ascii_of_nat 32.
Definition lbrace : ascii := ascii_of_nat 123.
Definition rbrace : ascii := ascii_of_nat 125.
Definition equals_sign : ascii := ascii_of_nat 61.

(** [c.isspace()], which is also the regular-expression class [\s]:
    TAB, LF, VT, FF, CR, the separators 0x1c-0x1f and the blank. *)
Definition is_space (c : ascii) : bool :=
  let n := nat_of_ascii c in
  ((9 <=? n)%nat && (n <=? 13)%nat) || ((28 <=? n)%nat && (n <=? 32)%nat).

Fixpoint lstrip (s : string) : string :=
  match s with
  | String c r => if is_space c then lstrip r else s
  | EmptyString => EmptyString
  end.

Fixpoint rstrip (s : string) : string :=
  match s with
  | String c r =>
      match rstrip r with
      | EmptyString => if is_space c then EmptyString else String c EmptyString
      | r' => String c r'
      end
  | EmptyString => EmptyString
  end.

(** [s.strip()] *)
Definition strip (s : string) : string := rstrip (lstrip s).

Definition lower_char (c : ascii) : ascii :=
  let n := nat_of_ascii c in
  if (65 <=? n)%nat && (n <=? 90)%nat then ascii_of_nat (n + 32) else c.

(** [s.lower()] *)
Fixpoint lower (s : string) : string :=
  match s with
  | String c r => String (lower_char c) (lower r)
  | EmptyString => EmptyString
  end.

(** [sep.join(l)] *)
Fixpoint join (sep : string) (l : list string) : string :=
  match l with
  | [] => ""
  | [x] => x
  | x :: rest => x +:+ sep +:+ join sep rest
  end.

(** [s.replace("\n", " ")] *)
Fixpoint replace_newlines (s : string) : string :=
  match s with
  | String c r =>
      String (if Ascii.eqb c newline then space else c) (replace_newlines r)
  | EmptyString => EmptyString
  end.

(** [s.split(" ")]: the pieces between single blanks, empty pieces kept. *)
Fixpoint split_blank (s : string) : list string :=
  match s with
  | EmptyString => [""]
  | String c r =>
      if Ascii.eqb c space then "" :: split_blank r
      else match split_blank r with
           | w :: ws => String c w :: ws
           | [] => [String c ""]
           end
  end.

(** [s[n:]] and [s[:n]] *)
Fixpoint drop_str (n : nat) (s : string) : string :=
  match n, s with
  | S n', String _ r => drop_str n' r
  | _, _ => s
  end.

Fixpoint take_str (n : nat) (s : string) : string :=
  match n, s with
  | S n', String c r => String c (take_str n' r)
  | _, _ => EmptyString
  end.

(** [s.find("{")], with Python's -1 as [None]. *)
Fixpoint find_lbrace (s : string) : option nat :=
  match s with
  | EmptyString => None
  | String c r => if Ascii.eqb c lbrace then Some 0 else S <$> find_lbrace r
  end.

(** ** Messages and the grade record (common.py, lines 18-32) *)

Inductive msg :=
| ENotFound                                   (* No se encontró LAB_SUMMARY en el notebook. *)
| EParseError                                 (* LAB_SUMMARY existe pero no pude parsearlo. ... *)
| EUnreadable                                 (* No pude leer el notebook: ... *)
| ENoValidator (lab : string)                 (* No hay validador implementado para {lab} ... *)
| EMissingKey (k : string)                    (* Falta clave obligatoria: '{k}' *)
| ENotNumeric (key : string)                  (* '{key}' debe ser numérico. *)
| EOutOfRange (key : string) (lo hi : pyfloat) (v : pyval)
                                              (* '{key}' fuera de rango [{lo}, {hi}]. Valor={v} *)
| EListLen (key : string) (n : nat)           (* '{key}' debe ser lista/tupla de longitud {n}. *)
| ECleanShape                                 (* 'clean_shape' debe ser [n_filas, n_cols]. *)
| ECleanShapeRows                             (* 'clean_shape[0]' debe ser numérico. *)
| EEffectShape                                (* effect debe ser dict con {'name':..., 'value':...}. *)
| EEffectValue                                (* effect['value'] debe ser numérico. *)
| ECIShape                                    (* bootstrap_ci_diff debe ser [lo, hi]. *)
| ECINumbers                                  (* bootstrap_ci_diff debe contener números. *)
| ECIOrder                                    (* bootstrap_ci_diff inválido: lo >= hi. *)
| EDashboardDict                              (* dashboard debe ser un dict. *)
| EDashboardFilters                           (* dashboard['filters'] debe ser lista. *)
| EDashboardCharts                            (* dashboard['charts'] debe ser lista. *)
| WFewRows (nrows : pyval)                    (* clean_shape tiene pocas filas ({nrows}). ... *)
| WFiltersMissing (missing : list string)     (* dashboard.filters no incluye: {sorted(missing)} *)
| WFewCharts (min_charts : Z)                 (* dashboard.charts tiene menos de {min_charts} gráficos. *)
| WStudentMismatch (declared folder : string) (* LAB_SUMMARY['student']=... no coincide con carpeta ... *)
| WReportShort (wc : nat) (min_words : Z).    (* Mini-reporte muy corto o ausente (...). *)

Inductive status_t := PASS | FAIL.

Record GradeResult := mkGradeResult {
  student : string;
  path : string;
  lab : string;
  status : status_t;
  score : Q;
  errors : list msg;
  warnings : list msg
}.

(** [GradeResult(student=..., path=..., lab=...)] with the dataclass defaults
    and [__post_init__]. *)
Definition new_result (st p l : string) : GradeResult :=
  mkGradeResult st p l PASS 1 [] [].

(** [result.errors.append(m)] *)
Definition add_error (m : msg) (r : GradeResult) : GradeResult :=
  mkGradeResult (student r) (path r) (lab r) (status r) (score r)
                (errors r ++ [m]) (warnings r).

(** [result.errors.extend(ms)] *)
Definition extend_errors (ms : list msg) (r : GradeResult) : GradeResult :=
  mkGradeResult (student r) (path r) (lab r) (status r) (score r)
                (errors r ++ ms) (warnings r).

(** [result.warnings.append(m)] *)
Definition add_warning (m : msg) (r : GradeResult) : GradeResult :=
  mkGradeResult (student r) (path r) (lab r) (status r) (score r)
                (errors r) (warnings r ++ [m]).

(** [result.status = s; result.score = q] *)
Definition set_verdict (s : status_t) (q : Q) (r : GradeResult) : GradeResult :=
  mkGradeResult (student r) (path r) (lab r) s q (errors r) (warnings r).

(** [if err: result.errors.append(err)] *)
Definition add_error_opt (err : option msg) (r : GradeResult) : GradeResult :=
  match err with
  | Some m => add_error m r
  | None => r
  end.

(** ** Notebooks *)

Record cell := mkCell {
  cell_type : string;
  source : string
}.

Definition notebook := list cell.

(** ** The assignment pattern (common.py, line 45)

    [re.compile(rf"{re.escape(varname)}\s*=\s*({{.*}})\s*$", re.DOTALL | re.MULTILINE)]:
    the variable name, blanks, [=], blanks, then group 1: an opening brace,
    anything (newlines included, as many characters as possible) and a
    closing brace after which the rest of the line is blank. *)

(** [\s*$] matches at the head of [s]: under MULTILINE [$] holds at the end
    of the text and before every newline. *)
Fixpoint blank_to_eol (s : string) : bool :=
  match s with
  | EmptyString => true
  | String c r =>
      if Ascii.eqb c newline then true
      else if is_space c then blank_to_eol r
      else false
  end.

(** The number of characters the greedy [.*}] takes from [s] so that
    [\s*$] matches behind it: up to the last closing brace that ends its
    line. *)
Fixpoint greedy_close (s : string) : option nat :=
  match s with
  | EmptyString => None
  | String c r =>
      match greedy_close r with
      | Some n => Some (S n)
      | None => if Ascii.eqb c rbrace && blank_to_eol r then Some 1 else None
      end
  end.

(** [s] without the literal prefix [p]. *)
Fixpoint strip_prefix (p s : string) : option string :=
  match p, s with
  | EmptyString, _ => Some s
  | String a p', String b s' => if Ascii.eqb a b then strip_prefix p' s' else None
  | String _ _, EmptyString => None
  end.

(** Group 1 of a match of the pattern that starts at the head of [s]. *)
Definition match_assignment (varname s : string) : option string :=
  match strip_prefix varname s with
  | None => None
  | Some s1 =>
      match lstrip s1 with
      | String c1 s2 =>
          if Ascii.eqb c1 equals_sign then
            match lstrip s2 with
            | String c2 s3 =>
                if Ascii.eqb c2 lbrace then
                  match greedy_close s3 with
                  | Some n => Some (String lbrace (take_str n s3))
                  | None => None
                  end
                else None
            | EmptyString => None
            end
          else None
      | EmptyString => None
      end
  end.

(** [pattern.search(code)]: group 1 of the leftmost match, if any. *)
Fixpoint search_assignment (varname code : string) : option string :=
  match match_assignment varname code with
  | Some raw => Some raw
  | None =>
      match code with
      | EmptyString => None
      | String _ rest => search_assignment varname rest
      end
  end.

(** ** The balanced-brace scan (common.py, lines 59-68)

    [balanced_scan s i depth] runs the loop over the characters [s], the
    first of which has index [i], from nesting depth [depth]; it returns
    the value of [end]. *)
Fixpoint balanced_scan (s : string) (i : nat) (depth : Z) : option nat :=
  match s with
  | EmptyString => None
  | String ch rest =>
      if Ascii.eqb ch lbrace then balanced_scan rest (S i) (depth + 1)
      else if Ascii.eqb ch rbrace then
        let depth' := (depth - 1)%Z in
        if (depth' =? 0)%Z then Some (i + 1)
        else balanced_scan rest (S i) depth'
      else balanced_scan rest (S i) depth
  end.

(** [raw[start:end]] *)
Definition slice (start end_ : nat) (s : string) : string :=
  take_str (end_ - start) (drop_str start s).

(** ** Generic validators (common.py, lines 112-149) *)

Definition is_number (x : pyval) : bool :=
  match x with
  | VInt _ | VFloat _ => true
  | _ => false
  end.

Fixpoint require_keys_loop (d : gmap string pyval) (keys : list string)
    (errs : list msg) : list msg :=
  match keys with
  | [] => errs
  | k :: ks =>
      match d !! k with
      | None => require_keys_loop d ks (errs ++ [EMissingKey k])
      | Some _ => require_keys_loop d ks errs
      end
  end.

Definition require_keys (d : gmap string pyval) (keys : list string) : list msg :=
  require_keys_loop d keys [].

Definition require_number_range (d : gmap string pyval) (key : string)
    (lo hi : pyfloat) : res (option msg) :=
  match d !! key with
  | None => Ok None
  | Some v =>
      if negb (is_number v) then Ok (Some (ENotNumeric key))
      else
        f ← py_float v;
        if negb (float_leb lo f && float_leb f hi)
        then Ok (Some (EOutOfRange key lo hi v))
        else Ok None
  end.

(** [v] when [isinstance(v, (list, tuple))]. *)
Definition as_sequence (v : pyval) : option (list pyval) :=
  match v with
  | VList l | VTuple l => Some l
  | _ => None
  end.

Definition require_list_len (d : gmap string pyval) (key : string) (n : nat)
    : option msg :=
  match d !! key with
  | None => None
  | Some v =>
      match as_sequence v with
      | Some l => if (length l =? n)%nat then None else Some (EListLen key n)
      | None => Some (EListLen key n)
      end
  end.

(** ** The validation spec: [specs/<lab>.json]

    Every entry is optional, as in the code's [.get(key, default)]; an entry
    that is present has the type the validator converts it with. A range is
    the pair [float(pr[0]), float(pr[1])]. *)

Record rules_t := mkRules {
  pvalue_range : option (pyfloat * pyfloat);
  alpha_range : option (pyfloat * pyfloat);
  min_rows_clean : option Z;
  ci_requires_order : option bool;
  dashboard_filters_required : option (list string);
  dashboard_charts_min : option Z
}.

Record report_t := mkReport {
  require_markdown_title_regex : option string;
  min_words_in_report_cell : option Z
}.

Record spec_t := mkSpec {
  summary_var : option string;
  required_keys : option (list string);
  rules : option rules_t;
  report : option report_t
}.

(** [{}] for [spec.get("rules", {})] and [spec.get("report", {})]. *)
Definition no_rules : rules_t := mkRules None None None None None None.
Definition no_report : report_t := mkReport None None.

(** ** grade.py *)

(** [count_words] (lines 32-35) *)
Definition count_words (text : string) : nat :=
  if text =? "" then 0
  else length (filter (fun w => strip w ≠ "") (split_blank (replace_newlines text))).

(** [max(a, b)] on two numbers: [b] when [b > a], else [a]. *)
Definition py_max (a b : Q) : Q := if Qle_bool b a then a else b.

(** [max(0.7, 1.0 - 0.05 * w)] (line 149) *)
Definition score_of_warnings (w : nat) : Q :=
  py_max 0.7 (1.0 - 0.05 * inject_Z (Z.of_nat w)).

(** Lines 57-64: the two range checks. *)
Definition check_ranges (summary : gmap string pyval) (rl : rules_t)
    (result : GradeResult) : res GradeResult :=
  let pr := default (FFinite 0, FFinite 1) (pvalue_range rl) in
  let ar := default (FFinite 0, FFinite 1) (alpha_range rl) in
  err ← require_number_range summary "pvalue" (fst pr) (snd pr);
  let result := add_error_opt err result in
  err ← require_number_range summary "alpha" (fst ar) (snd ar);
  Ok (add_error_opt err result).

(** Lines 67-78: [clean_shape]. *)
Definition check_clean_shape (summary : gmap string pyval) (rl : rules_t)
    (result : GradeResult) : res GradeResult :=
  match summary !! "clean_shape" with
  | None => Ok result
  | Some sh =>
      match as_sequence sh with
      | Some [nrows; _] =>
          if negb (is_number nrows) then Ok (add_error ECleanShapeRows result)
          else
            let min_rows := default 1%Z (min_rows_clean rl) in
            n ← py_int nrows;
            if (n <? min_rows)%Z then Ok (add_warning (WFewRows nrows) result)
            else Ok result
      | _ => Ok (add_error ECleanShape result)
      end
  end.

(** Lines 81-87: [effect]. *)
Definition check_effect (summary : gmap string pyval) (result : GradeResult)
    : GradeResult :=
  match summary !! "effect" with
  | None => result
  | Some eff =>
      match eff with
      | VDict e =>
          match e !! "name", e !! "value" with
          | Some _, Some value =>
              if negb (is_number value) then add_error EEffectValue result
              else result
          | _, _ => add_error EEffectShape result
          end
      | _ => add_error EEffectShape result
      end
  end.

(** Lines 90-100: [bootstrap_ci_diff]. *)
Definition check_ci (summary : gmap string pyval) (rl : rules_t)
    (result : GradeResult) : res GradeResult :=
  match summary !! "bootstrap_ci_diff" with
  | None => Ok result
  | Some ci =>
      match as_sequence ci with
      | Some [lo; hi] =>
          if negb (is_number lo && is_number hi)
          then Ok (add_error ECINumbers result)
          else if default true (ci_requires_order rl) then
            flo ← py_float lo;
            fhi ← py_float hi;
            if float_leb fhi flo then Ok (add_error ECIOrder result)
            else Ok result
          else Ok result
      | _ => Ok (add_error ECIShape result)
      end
  end.

(** [k in set(filters)] for a string [k]: some element is the same string. *)
Definition str_in (k : string) (l : list pyval) : bool :=
  existsb (fun v => match v with VStr s => s =? k | _ => false end) l.

(** [sorted(filters_req - set(filters))] *)
Definition missing_filters (filters_req : list string) (filters : list pyval)
    : list string :=
  merge_sort (fun a b => Is_true (a <=? b))
    (filter (fun k => str_in k filters = false) (remove_dups filters_req)).

(** Lines 103-124: [dashboard]. [set(filters)] raises [TypeError] on an
    unhashable element. *)
Definition check_dashboard (summary : gmap string pyval) (rl : rules_t)
    (result : GradeResult) : res GradeResult :=
  match summary !! "dashboard" with
  | None => Ok result
  | Some (VDict dash) =>
      let filters_req := default [] (dashboard_filters_required rl) in
      result ←
        match default (VList []) (dash !! "filters") with
        | VList filters =>
            if forallb hashable filters then
              match missing_filters filters_req filters with
              | [] => Ok result
              | missing => Ok (add_warning (WFiltersMissing missing) result)
              end
            else Raise TypeError
        | _ => Ok (add_error EDashboardFilters result)
        end;
      match default (VList []) (dash !! "charts") with
      | VList charts =>
          let min_charts := default 0%Z (dashboard_charts_min rl) in
          if (Z.of_nat (length charts) <? min_charts)%Z
          then Ok (add_warning (WFewCharts min_charts) result)
          else Ok result
      | _ => Ok (add_error EDashboardCharts result)
      end
  | Some _ => Ok (add_error EDashboardDict result)
  end.

(** Lines 127-131: the declared student against the folder name. *)
Definition check_student (summary : gmap string pyval) (result : GradeResult)
    : GradeResult :=
  match summary !! "student" with
  | Some (VStr s) =>
      if lower (strip s) =? lower (strip (student result)) then result
      else add_warning (WStudentMismatch s (student result)) result
  | _ => result
  end.

(** Lines 142-149: the final status and score. *)
Definition final_verdict (result : GradeResult) : GradeResult :=
  match errors result with
  | [] => set_verdict PASS (score_of_warnings (length (warnings result))) result
  | _ :: _ => set_verdict FAIL 0 result
  end.

(** Lines 51-131: every structural check, in order. Lines 134-139 read the
    report entries of the spec and do nothing with them. *)
Definition structural_checks (summary : gmap string pyval) (spec : spec_t)
    (result : GradeResult) : res GradeResult :=
  let req := default [] (required_keys spec) in
  let result := extend_errors (require_keys summary req) result in
  let rl := default no_rules (rules spec) in
  result ← check_ranges summary rl result;
  result ← check_clean_shape summary rl result;
  let result := check_effect summary result in
  result ← check_ci summary rl result;
  result ← check_dashboard summary rl result;
  Ok (check_student summary result).

(** [summary.get("__parse_error__")] is truthy. *)
Definition has_parse_error (summary : gmap string pyval) : bool :=
  match summary !! "__parse_error__" with
  | Some v => truthy v
  | None => false
  end.

(** [validate_lab01] (lines 38-149). [summary.get] raises [AttributeError]
    on a value that is not a dict; an exception of a check is not caught. *)
Definition validate_lab01 (summary : pyval) (spec : spec_t)
    (result : GradeResult) : res GradeResult :=
  match summary with
  | VNone => Ok (add_error ENotFound (set_verdict FAIL 0 result))
  | VDict d =>
      if has_parse_error d
      then Ok (add_error EParseError (set_verdict FAIL 0 result))
      else result ← structural_checks d spec result; Ok (final_verdict result)
  | _ => Raise AttributeError
  end.

Section Library.

(** [ast.literal_eval]: the value of a literal, [None] when it raises. *)
Variable literal_eval : string -> option pyval.

(** [re.compile(pattern, re.IGNORECASE)]: the compiled pattern as its
    [search] predicate, [None] when the pattern does not compile. *)
Variable re_compile_ignorecase : string -> option (string -> bool).

(** [_extract_dict_literal_from_code] (common.py, lines 39-73); Python's
    [None] is [VNone]. *)
Definition _extract_dict_literal_from_code (code varname : string) : pyval :=
  match search_assignment varname code with
  | None => VNone
  | Some raw =>
      match literal_eval raw with
      | Some v => v
      | None =>
          match find_lbrace raw with
          | None => VNone
          | Some start =>
              match balanced_scan (drop_str start raw) start 0 with
              | None => VNone
              | Some end_ =>
                  match literal_eval (slice start end_ raw) with
                  | Some v => v
                  | None => parse_error_sentinel
                  end
              end
          end
      end
  end.

(** [extract_lab_summary] (common.py, lines 76-84) *)
Fixpoint extract_lab_summary (nb : notebook) (varname : string) : pyval :=
  match nb with
  | [] => VNone
  | c :: rest =>
      if negb (cell_type c =? "code") then extract_lab_summary rest varname
      else
        match _extract_dict_literal_from_code (source c) varname with
        | VNone => extract_lab_summary rest varname
        | d => d
        end
  end.

(** The loop of [find_markdown_section_text] (lines 98-104): [texts] is
    the list built so far. *)
Fixpoint markdown_loop (rx : string -> bool) (nb : notebook)
    (texts : list string) : list string :=
  match nb with
  | [] => texts
  | c :: rest =>
      if negb (cell_type c =? "markdown") then markdown_loop rx rest texts
      else if rx (source c) then markdown_loop rx rest (texts ++ [source c])
      else markdown_loop rx rest texts
  end.

Definition blank_line : string := String newline (String newline "").

(** [find_markdown_section_text] (common.py, lines 92-105) *)
Definition find_markdown_section_text (nb : notebook) (title_regex : string)
    : res string :=
  match re_compile_ignorecase title_regex with
  | None => Raise ReError
  | Some rx => Ok (strip (join blank_line (markdown_loop rx nb [])))
  end.

(** [validate_report] (grade.py, lines 152-164) *)
Definition validate_report (nb : notebook) (spec : spec_t)
    (result : GradeResult) : res GradeResult :=
  let report_spec := default no_report (report spec) in
  let title_rx := default "" (require_markdown_title_regex report_spec) in
  let min_words := default 0%Z (min_words_in_report_cell report_spec) in
  if (title_rx =? "") || (min_words <=? 0)%Z then Ok result
  else
    text ← find_markdown_section_text nb title_rx;
    let wc := count_words text in
    if (Z.of_nat wc <? min_words)%Z
    then Ok (add_warning (WReportShort wc min_words) result)
    else Ok result.

(** The body of the loop of [main] (grade.py, lines 184-212) for one
    submission: [nb] is the notebook [read_notebook] returned, [None] when
    it raised. *)
Definition grade_submission (lab_name : string) (spec : spec_t)
    (student_name nb_path : string) (nb : option notebook) : res GradeResult :=
  let gr := new_result student_name nb_path lab_name in
  match nb with
  | None => Ok (add_error EUnreadable (set_verdict FAIL 0 gr))
  | Some nb =>
      let var := default "LAB_SUMMARY" (summary_var spec) in
      let summary := extract_lab_summary nb var in
      if lab_name =? "lab01" then
        gr ← validate_lab01 summary spec gr;
        validate_report nb spec gr
      else Ok (add_error (ENoValidator lab_name) (set_verdict FAIL 0 gr))
  end.

End Library.

(** ** The batch loop of [main] (grade.py, lines 181-218) *)

Definition is_fail (s : status_t) : bool :=
  match s with
  | FAIL => true
  | PASS => false
  end.

Section Batch.

Variable literal_eval : string -> option pyval.
Variable re_compile_ignorecase : string -> option (string -> bool).

(** [read_notebook]: the notebook at a path, [None] when reading raises. *)
Variable read_notebook : string -> option notebook.

(** [get_student_from_path]: [nb_path.parent.name], computed by pathlib. *)
Variable get_student_from_path : string -> string.

(** The [for] loop of [main] (lines 184-212) over the paths still to grade,
    a path being the text [str(nb_path)]; [results] and [any_fail] are the
    two accumulators. An exception of a validator is not caught: it ends the
    loop and nothing is returned. *)
Fixpoint main_loop (lab_name : string) (spec : spec_t) (nb_paths : list string)
    (results : list GradeResult) (any_fail : bool)
    : res (list GradeResult * bool) :=
  match nb_paths with
  | [] => Ok (results, any_fail)
  | nb_path :: rest =>
      gr ← grade_submission literal_eval re_compile_ignorecase lab_name spec
             (get_student_from_path nb_path) nb_path (read_notebook nb_path);
      main_loop lab_name spec rest (results ++ [gr])
        (if is_fail (status gr) then true else any_fail)
  end.

End Batch.

(** ** Reference notions the statements below compare the code with *)

(** The nesting depth of a span as the contract words it: one up for every
    opening brace, one down for every closing brace. *)
Fixpoint brace_depth (s : string) : Z :=
  match s with
  | EmptyString => 0
  | String c r =>
      ((if Ascii.eqb c lbrace then 1 else if Ascii.eqb c rbrace then -1 else 0)
       + brace_depth r)%Z
  end.

(** Every character of [s] is white space. *)
Fixpoint all_space (s : string) : bool :=
  match s with
  | EmptyString => true
  | String c r => is_space c && all_space r
  end.

Definition head_char (s : string) : option ascii :=
  match s with
  | EmptyString => None
  | String c _ => Some c
  end.

Fixpoint last_char (s : string) : option ascii :=
  match s with
  | EmptyString => None
  | String c EmptyString => Some c
  | String _ r => last_char r
  end.

(** [s] neither starts nor ends with white space. *)
Definition trimmed (s : string) : Prop :=
  (forall c, head_char s = Some c -> is_space c = false) /\
  (forall c, last_char s = Some c -> is_space c = false).

(** The error [m] reports the missing key [k]. *)
Definition is_missing_key (k : string) (m : msg) : bool :=
  match m with
  | EMissingKey k' => k' =? k
  | _ => false
  end.

Definition missing_key_count (k : string) (l : list msg) : nat :=
  length (filter (fun m => is_missing_key k m = true) l).

Definition is_ci_order (m : msg) : bool :=
  match m with
  | ECIOrder => true
  | _ => false
  end.

Definition is_none (v : pyval) : bool :=
  match v with
  | VNone => true
  | _ => false
  end.

(** The cells the extractor stops at: code cells whose block yields a value
    other than [None]. *)
Definition yields (literal_eval : string -> option pyval) (varname : string)
    (c : cell) : Prop :=
  cell_type c = "code" /\
  is_none (_extract_dict_literal_from_code literal_eval (source c) varname) = false.

#[global] Instance yields_dec literal_eval varname c :
  Decision (yields literal_eval varname c).
Proof. unfold yields. apply _. Defined.

(** [r'] is [r] after some checks: errors and warnings were only appended,
    none of the new errors reports a missing key, and the identity of the
    submission is untouched. *)
Definition grows (r r' : GradeResult) : Prop :=
  exists es ws,
    errors r' = errors r ++ es /\
    warnings r' = warnings r ++ ws /\
    (forall k, missing_key_count k es = 0) /\
    student r' = student r.

(** The number of times [k] is listed in [keys]. *)
Definition occurrences (k : string) (keys : list string) : nat :=
  length (filter (fun k' => k' = k) keys).

(** The blocks of kind markdown whose text the compiled pattern [rx] finds a
    match in, in document order. *)
Definition matching_cells (rx : string -> bool) (nb : notebook) : list cell :=
  filter (fun c => cell_type c = "markdown" /\ rx (source c) = true) nb.



(** Texts one after the other with a blank line, that is two line feeds,
    between neighbours. *)
Fixpoint blank_line_separated (texts : list string) : string :=
  match texts with
  | [] => ""
  | [t] => t
  | t :: rest =>
      t +:+ String (ascii_of_nat 10) (String (ascii_of_nat 10) (blank_line_separated rest))
  end.

(** ** Library behaviour on the inputs of the examples *)

(** [ast.literal_eval] on the spans the examples below hand to it: the empty
    dict display evaluates to the empty dict, and the unbalanced spans are
    syntax errors. *)
Definition literal_eval_sample (raw : string) : option pyval :=
  if raw =? "{}" then Some (VDict ∅) else None.

Fixpoint contains (p s : string) : bool :=
  match strip_prefix p s with
  | Some _ => true
  | None =>
      match s with
      | EmptyString => false
      | String _ r => contains p r
      end
  end.

(** [re.compile(p, re.IGNORECASE).search] for a pattern [p] made of letters
    and blanks only: a case-insensitive substring search. *)
Definition re_compile_sample (p : string) : option (string -> bool) :=
  Some (fun s => contains (lower p) (lower s)).

Definition code_cell (src : string) : cell := mkCell "code" src.
Definition markdown_cell (src : string) : cell := mkCell "markdown" src.

(** A spec that only asks for a report of at least five words under a
    heading matching [Reporte]. *)
Definition report_only_spec : spec_t :=
  mkSpec None None None (Some (mkReport (Some "Reporte") (Some 5%Z))).

Definition sample_student : string := "Perez".
Definition sample_path : string := "estudiantes/Perez/lab01.ipynb".

(** A spec that only lists two required keys. *)
Definition keys_only_spec : spec_t :=
  mkSpec None (Some ["pvalue"; "alpha"]) None None.

(** * Properties *)

(** ** Text *)

Lemma append_cons c (a b : string) : String c a +:+ b = String c (a +:+ b).
Proof. reflexivity. Qed.

Lemma append_empty (b : string) : "" +:+ b = b.
Proof. reflexivity. Qed.

Lemma lstrip_split s : exists a, s = a +:+ lstrip s /\ all_space a = true.
Proof.
  induction s as [|c r [a [Hr Ha]]]; simpl.
  - exists ""; done.
  - destruct (is_space c) eqn:Hc.
    + exists (String c a). rewrite append_cons, <- Hr. simpl. rewrite Hc, Ha. done.
    + exists ""; done.
Qed.

Lemma lstrip_head s c : head_char (lstrip s) = Some c -> is_space c = false.
Proof.
  induction s as [|c' r IH]; simpl; [done|].
  destruct (is_space c') eqn:Hc; [done|].
  simpl. intros [= <-]. done.
Qed.

Lemma rstrip_split s : exists b, s = rstrip s +:+ b /\ all_space b = true.
Proof.
  induction s as [|c r [b [Hr Hb]]]; simpl.
  - exists ""; done.
  - destruct (rstrip r) as [|c' r'] eqn:Hrr.
    + destruct (is_space c) eqn:Hc.
      * exists (String c b). rewrite append_empty in *. subst r. simpl.
        rewrite Hc, Hb. done.
      * exists b. rewrite append_cons, <- Hr. done.
    + exists b. rewrite append_cons, <- Hr. done.
Qed.

Lemma rstrip_last s c : last_char (rstrip s) = Some c -> is_space c = false.
Proof.
  revert c. induction s as [|c' r IH]; simpl; [done|].
  intros c. destruct (rstrip r) as [|c'' r'] eqn:Hrr.
  - destruct (is_space c') eqn:Hc; simpl; [done|]. intros [= <-]. done.
  - intros H. apply IH. exact H.
Qed.

Lemma rstrip_head_inv s c : head_char (rstrip s) = Some c -> head_char s = Some c.
Proof.
  destruct s as [|c' r]; simpl; [done|].
  destruct (rstrip r); [destruct (is_space c')|]; simpl; done.
Qed.

Lemma strip_trimmed s : trimmed (strip s).
Proof.
  split; intros c H.
  - apply rstrip_head_inv in H. by apply lstrip_head in H.
  - by apply rstrip_last in H.
Qed.

Lemma strip_split s :
  exists a b, s = a +:+ strip s +:+ b /\ all_space a = true /\ all_space b = true.
Proof.
  destruct (lstrip_split s) as [a [Hs Ha]].
  destruct (rstrip_split (lstrip s)) as [b [Hl Hb]].
  exists a, b. unfold strip. rewrite <- Hl. done.
Qed.

(** ** The balanced-brace scan *)

Lemma take_str_empty n : take_str n "" = "".
Proof. by destruct n. Qed.

Lemma get_drop_str n s c :
  String.get n s = Some c ->
  exists rest, drop_str n s = String c rest /\ String.length s = n + S (String.length rest).
Proof.
  revert s. induction n as [|n IH]; intros [|c' r]; simpl; try done.
  - intros [= ->]. by exists r.
  - intros H. destruct (IH _ H) as [rest [-> ->]]. by exists rest.
Qed.

Lemma get_drop_str_add n k s : String.get k (drop_str n s) = String.get (n + k) s.
Proof.
  revert s. induction n as [|n IH]; intros s; [done|].
  destruct s as [|c r]; simpl; [by destruct k|]. apply IH.
Qed.

Lemma take_str_S n c r : take_str (S n) (String c r) = String c (take_str n r).
Proof. reflexivity. Qed.

Lemma brace_depth_cons c r :
  brace_depth (String c r) =
  ((if Ascii.eqb c lbrace then 1 else if Ascii.eqb c rbrace then -1 else 0)
   + brace_depth r)%Z.
Proof. reflexivity. Qed.

(** The loop invariant of the scan, from any positive depth [d]: the value
    returned is one past the first closing brace that brings the depth to
    zero, and the depth stays positive before it. *)
Lemma balanced_scan_inv s : forall i d, (0 < d)%Z ->
  match balanced_scan s i d with
  | Some e =>
      exists n, e = i + S n /\ S n <= String.length s /\
        String.get n s = Some rbrace /\
        (d + brace_depth (take_str (S n) s) = 0)%Z /\
        forall m, m <= n -> (0 < d + brace_depth (take_str m s))%Z
  | None => forall m, (0 < d + brace_depth (take_str m s))%Z
  end.
Proof.
  induction s as [|c r IH]; intros i d Hd; cbn [balanced_scan].
  - intros m. rewrite take_str_empty. simpl. lia.
  - assert (Hstep : forall d', (0 < d')%Z ->
      (d' = d + (if Ascii.eqb c lbrace then 1
                 else if Ascii.eqb c rbrace then -1 else 0))%Z ->
      match balanced_scan r (S i) d' with
      | Some e =>
          exists n, e = i + S n /\ S n <= String.length (String c r) /\
            String.get n (String c r) = Some rbrace /\
            (d + brace_depth (take_str (S n) (String c r)) = 0)%Z /\
            forall m, m <= n -> (0 < d + brace_depth (take_str m (String c r)))%Z
      | None => forall m, (0 < d + brace_depth (take_str m (String c r)))%Z
      end).
    { intros d' Hd' Heq. specialize (IH (S i) d' Hd').
      destruct (balanced_scan r (S i) d') as [e|].
      - destruct IH as (n & -> & Hlen & Hget & Hz & Hpos).
        exists (S n). repeat split; [lia|simpl; lia|done| |].
        + rewrite take_str_S, brace_depth_cons. lia.
        + intros [|m] Hm; [simpl; lia|].
          rewrite take_str_S, brace_depth_cons. specialize (Hpos m ltac:(lia)). lia.
      - intros [|m]; [simpl; lia|].
        rewrite take_str_S, brace_depth_cons. specialize (IH m). lia. }
    destruct (Ascii.eqb c lbrace) eqn:Hl; [apply Hstep; lia|].
    destruct (Ascii.eqb c rbrace) eqn:Hr; [|apply Hstep; lia].
    destruct (d - 1 =? 0)%Z eqn:Hz; [|apply Z.eqb_neq in Hz; apply Hstep; lia].
    apply Z.eqb_eq in Hz.
    exists 0. split; [lia|]. split; [simpl; lia|]. split; [|split].
    + apply Ascii.eqb_eq in Hr. by subst c.
    + rewrite take_str_S, brace_depth_cons, Hl, Hr. simpl. lia.
    + intros m Hm. replace m with 0 by lia. simpl. lia.
Qed.

(** The scan started on an opening brace at index [start], as the extractor
    starts it. *)
Lemma balanced_scan_from_brace raw start :
  String.get start raw = Some lbrace ->
  match balanced_scan (drop_str start raw) start 0 with
  | Some e =>
      start < e <= String.length raw /\
      String.get (e - 1) raw = Some rbrace /\
      brace_depth (slice start e raw) = 0%Z /\
      forall e', start < e' < e -> (0 < brace_depth (slice start e' raw))%Z
  | None =>
      forall e', start < e' -> (0 < brace_depth (slice start e' raw))%Z
  end.
Proof.
  intros Hget. destruct (get_drop_str _ _ _ Hget) as (rest & Hdrop & Hlen).
  pose proof (get_drop_str_add start) as Hadd.
  unfold slice. rewrite Hdrop. simpl balanced_scan.
  pose proof (balanced_scan_inv rest (S start) 1%Z ltac:(lia)) as Hinv.
  change (0 + 1)%Z with 1%Z.
  destruct (balanced_scan rest (S start) 1) as [e|].
  - destruct Hinv as (n & -> & Hn & Hg & Hz & Hpos).
    repeat split; [lia|lia| | |].
    + replace (S start + S n - 1) with (start + S n) by lia.
      rewrite <- Hadd, Hdrop. exact Hg.
    + replace (S start + S n - start) with (S (S n)) by lia.
      change (take_str (S (S n)) (String lbrace rest))
        with (String lbrace (take_str (S n) rest)).
      simpl brace_depth. simpl in Hz. lia.
    + intros e' He'. destruct (e' - start) as [|m] eqn:Hm; [lia|].
      simpl. specialize (Hpos m ltac:(lia)). lia.
  - intros e' He'. destruct (e' - start) as [|m] eqn:Hm; [lia|].
    simpl. specialize (Hinv m). lia.
Qed.

(** ** The assignment pattern and the extractor *)

Lemma match_assignment_brace varname s raw :
  match_assignment varname s = Some raw -> exists r, raw = String lbrace r.
Proof.
  unfold match_assignment. intros H.
  repeat case_match; try done. injection H as <-. eauto.
Qed.

Lemma search_assignment_brace varname code raw :
  search_assignment varname code = Some raw -> exists r, raw = String lbrace r.
Proof.
  induction code as [|c rest IH]; simpl.
  - destruct (match_assignment varname "") eqn:Hm; [|done].
    intros [= <-]. eapply match_assignment_brace, Hm.
  - destruct (match_assignment varname (String c rest)) eqn:Hm; [|exact IH].
    intros [= <-]. eapply match_assignment_brace, Hm.
Qed.

Section Extraction.

Variable literal_eval : string -> option pyval.

(** What the extractor makes of one block once the pattern matched. *)
Lemma extract_block_matched code varname raw :
  search_assignment varname code = Some raw ->
  _extract_dict_literal_from_code literal_eval code varname =
    match literal_eval raw with
    | Some v => v
    | None =>
        match balanced_scan raw 0 0 with
        | None => VNone
        | Some e =>
            match literal_eval (slice 0 e raw) with
            | Some v => v
            | None => parse_error_sentinel
            end
        end
    end.
Proof.
  intros Hs. unfold _extract_dict_literal_from_code. rewrite Hs.
  destruct (search_assignment_brace _ _ _ Hs) as [r ->].
  destruct (literal_eval (String lbrace r)); [done|].
  done.
Qed.

Lemma extract_block_unmatched code varname :
  search_assignment varname code = None ->
  _extract_dict_literal_from_code literal_eval code varname = VNone.
Proof. intros Hs. unfold _extract_dict_literal_from_code. by rewrite Hs. Qed.

Lemma extract_lab_summary_find nb varname :
  extract_lab_summary literal_eval nb varname =
    match list_find (yields literal_eval varname) nb with
    | Some (_, c) => _extract_dict_literal_from_code literal_eval (source c) varname
    | None => VNone
    end.
Proof.
  induction nb as [|c rest IH]; [done|].
  cbn [extract_lab_summary list_find].
  destruct (decide (yields literal_eval varname c)) as [[Hc Hy]|Hn].
  - rewrite Hc. simpl.
    destruct (_extract_dict_literal_from_code literal_eval (source c) varname); done.
  - rewrite IH. destruct (cell_type c =? "code") eqn:Hc; simpl.
    + apply String.eqb_eq in Hc.
      destruct (_extract_dict_literal_from_code literal_eval (source c) varname) eqn:He;
        try (exfalso; apply Hn; split; [done|by rewrite He]).
      by destruct (list_find (yields literal_eval varname) rest) as [[? ?]|].
    + by destruct (list_find (yields literal_eval varname) rest) as [[? ?]|].
Qed.

Lemma extract_lab_summary_none nb varname :
  extract_lab_summary literal_eval nb varname = VNone <->
  forall c, c ∈ nb -> cell_type c = "code" ->
    _extract_dict_literal_from_code literal_eval (source c) varname = VNone.
Proof.
  induction nb as [|c rest IH]; simpl.
  - split; [|done]. intros _ c Hc. by apply elem_of_nil in Hc.
  - destruct (cell_type c =? "code") eqn:Hc; simpl.
    + apply String.eqb_eq in Hc.
      destruct (_extract_dict_literal_from_code literal_eval (source c) varname) eqn:He.
      1: { rewrite IH. split.
           - intros H c' [->|Hin]%elem_of_cons; [done|]. by apply H.
           - intros H c' Hin. apply H. by right. }
      all: split; [done|]; intros H;
        specialize (H c (list_elem_of_here _ _) Hc); congruence.
    + apply String.eqb_neq in Hc. rewrite IH. split.
      * intros H c' [->|Hin]%elem_of_cons; [done|]. by apply H.
      * intros H c' Hin. apply H. by right.
Qed.

End Extraction.

(** ** The validation engine *)

Lemma require_keys_loop_spec d keys : forall errs,
  require_keys_loop d keys errs =
  errs ++ map EMissingKey (filter (fun k => d !! k = None) keys).
Proof.
  induction keys as [|k ks IH]; intros errs; simpl.
  - by rewrite app_nil_r.
  - rewrite filter_cons. destruct (d !! k) eqn:Hk.
    + rewrite IH. by rewrite decide_False.
    + rewrite IH, decide_True by done. by rewrite <- app_assoc.
Qed.

Lemma require_keys_spec d keys :
  require_keys d keys = map EMissingKey (filter (fun k => d !! k = None) keys).
Proof. unfold require_keys. by rewrite require_keys_loop_spec. Qed.

Lemma missing_key_count_app k l1 l2 :
  missing_key_count k (l1 ++ l2) =
  missing_key_count k l1 + missing_key_count k l2.
Proof. unfold missing_key_count. by rewrite filter_app, length_app. Qed.

Lemma missing_key_count_require_keys k d keys :
  missing_key_count k (require_keys d keys) =
  match d !! k with
  | None => occurrences k keys
  | Some _ => 0
  end.
Proof.
  rewrite require_keys_spec. unfold missing_key_count, occurrences.
  induction keys as [|k' ks IH]; simpl.
  - by destruct (d !! k).
  - rewrite !filter_cons. destruct (decide (d !! k' = None)) as [Hn|Hs]; simpl.
    + rewrite filter_cons. simpl. destruct (decide (k' = k)) as [->|Hne].
      * rewrite String.eqb_refl, decide_True by done. simpl. rewrite IH, Hn. done.
      * apply String.eqb_neq in Hne. rewrite Hne, decide_False by done. rewrite IH.
        destruct (d !! k); done.
    + rewrite IH. destruct (decide (k' = k)) as [->|Hne]; [|done].
      destruct (d !! k); [done|congruence].
Qed.

Lemma grows_refl r : grows r r.
Proof. exists [], []. by rewrite !app_nil_r. Qed.

Lemma grows_trans r1 r2 r3 : grows r1 r2 -> grows r2 r3 -> grows r1 r3.
Proof.
  intros (es & ws & He & Hw & Hk & Hs) (es' & ws' & He' & Hw' & Hk' & Hs').
  exists (es ++ es'), (ws ++ ws'). rewrite He', He, Hw', Hw, !app_assoc.
  repeat split; [|congruence].
  intros k. rewrite missing_key_count_app, Hk, Hk'. done.
Qed.

Lemma grows_add_error m r :
  (forall k, is_missing_key k m = false) -> grows r (add_error m r).
Proof.
  intros Hm. exists [m], []. simpl. rewrite app_nil_r. repeat split.
  intros k. unfold missing_key_count. rewrite filter_cons, decide_False; [done|].
  by rewrite Hm.
Qed.

Lemma grows_add_warning m r : grows r (add_warning m r).
Proof. exists [], [m]. simpl. by rewrite app_nil_r. Qed.


Lemma grows_add_error_opt key lo hi d err r :
  require_number_range d key lo hi = Ok err -> grows r (add_error_opt err r).
Proof.
  unfold require_number_range. intros H.
  destruct (d !! key) as [v|]; [|injection H as <-; apply grows_refl].
  destruct (negb (is_number v)); [injection H as <-; by apply grows_add_error|].
  destruct (py_float v) as [f|]; simpl in H; [|done].
  destruct (negb _); injection H as <-;
    [by apply grows_add_error|apply grows_refl].
Qed.

Lemma grows_check_ranges d rl r r' : check_ranges d rl r = Ok r' -> grows r r'.
Proof.
  unfold check_ranges. intros H.
  destruct (require_number_range d "pvalue" _ _) as [e1|] eqn:H1; simpl in H; [|done].
  destruct (require_number_range d "alpha" _ _) as [e2|] eqn:H2; simpl in H; [|done].
  injection H as <-.
  eapply grows_trans; eapply grows_add_error_opt; eassumption.
Qed.

Lemma grows_check_clean_shape d rl r r' :
  check_clean_shape d rl r = Ok r' -> grows r r'.
Proof.
  unfold check_clean_shape. intros H. cbv [mbind res_bind] in H.
  repeat (case_match; simpl in H; try done); simplify_eq;
    first [apply grows_refl | by apply grows_add_error | apply grows_add_warning].
Qed.

Lemma grows_check_effect d r : grows r (check_effect d r).
Proof.
  unfold check_effect. repeat case_match;
    first [apply grows_refl | by apply grows_add_error].
Qed.

Lemma grows_check_ci d rl r r' : check_ci d rl r = Ok r' -> grows r r'.
Proof.
  unfold check_ci. intros H. cbv [mbind res_bind] in H.
  repeat (case_match; simpl in H; try done); simplify_eq;
    first [apply grows_refl | by apply grows_add_error].
Qed.

Lemma grows_check_dashboard d rl r r' :
  check_dashboard d rl r = Ok r' -> grows r r'.
Proof.
  unfold check_dashboard. intros H.
  repeat (case_match; simpl in H; try done); simplify_eq;
    repeat first [ apply grows_refl
                 | apply grows_add_warning
                 | by apply grows_add_error
                 | eapply grows_trans; [|apply grows_add_warning]
                 | eapply grows_trans; [|by apply grows_add_error] ].
Qed.

Lemma grows_check_student d r : grows r (check_student d r).
Proof.
  unfold check_student. repeat case_match;
    first [apply grows_refl | apply grows_add_warning].
Qed.

(** The run of the structural checks, step by step. *)
Lemma structural_checks_steps d spec r0 r :
  structural_checks d spec r0 = Ok r ->
  exists r1 r2 r3 r4,
    check_ranges d (default no_rules (rules spec))
      (extend_errors (require_keys d (default [] (required_keys spec))) r0) = Ok r1 /\
    check_clean_shape d (default no_rules (rules spec)) r1 = Ok r2 /\
    check_ci d (default no_rules (rules spec)) (check_effect d r2) = Ok r3 /\
    check_dashboard d (default no_rules (rules spec)) r3 = Ok r4 /\
    r = check_student d r4.
Proof.
  unfold structural_checks. intros H.
  destruct (check_ranges _ _ _) as [r1|] eqn:H1; simpl in H; [|done].
  destruct (check_clean_shape _ _ _) as [r2|] eqn:H2; simpl in H; [|done].
  destruct (check_ci _ _ _) as [r3|] eqn:H3; simpl in H; [|done].
  destruct (check_dashboard _ _ _) as [r4|] eqn:H4; simpl in H; [|done].
  injection H as <-. by exists r1, r2, r3, r4.
Qed.

Lemma structural_checks_grows d spec r0 r :
  structural_checks d spec r0 = Ok r ->
  grows (extend_errors (require_keys d (default [] (required_keys spec))) r0) r.
Proof.
  intros H.
  destruct (structural_checks_steps _ _ _ _ H) as (r1 & r2 & r3 & r4 & H1 & H2 & H3 & H4 & ->).
  eapply grows_trans; [|apply grows_check_student].
  eapply grows_trans; [|eapply grows_check_dashboard, H4].
  eapply grows_trans; [|eapply grows_check_ci, H3].
  eapply grows_trans; [|apply grows_check_effect].
  eapply grows_trans; [|eapply grows_check_clean_shape, H2].
  eapply grows_check_ranges, H1.
Qed.

Lemma final_verdict_errors r : errors (final_verdict r) = errors r.
Proof. unfold final_verdict. destruct (errors r) eqn:He; simpl; by rewrite He. Qed.

Lemma final_verdict_warnings r : warnings (final_verdict r) = warnings r.
Proof. unfold final_verdict. by destruct (errors r). Qed.

Lemma final_verdict_fail r :
  errors r <> [] -> status (final_verdict r) = FAIL /\ score (final_verdict r) = 0%Q.
Proof. unfold final_verdict. by destruct (errors r). Qed.

Lemma final_verdict_pass r :
  errors r = [] ->
  status (final_verdict r) = PASS /\
  score (final_verdict r) = score_of_warnings (length (warnings r)).
Proof. unfold final_verdict. intros ->. done. Qed.

Lemma validate_lab01_dict d spec r0 :
  has_parse_error d = false ->
  validate_lab01 (VDict d) spec r0 =
  (r ← structural_checks d spec r0; Ok (final_verdict r)).
Proof. intros H. unfold validate_lab01. by rewrite H. Qed.

Lemma validate_lab01_dict_inv d spec r0 r :
  has_parse_error d = false ->
  validate_lab01 (VDict d) spec r0 = Ok r ->
  exists r1, structural_checks d spec r0 = Ok r1 /\ r = final_verdict r1.
Proof.
  intros Hp. rewrite validate_lab01_dict by done.
  destruct (structural_checks d spec r0) as [r1|]; simpl; [|done].
  intros [= <-]. eauto.
Qed.

(** Whatever [validate_lab01] returns obeys the status invariant. *)
Lemma validate_lab01_verdict summary spec r0 r :
  validate_lab01 summary spec r0 = Ok r ->
  (status r = FAIL <-> errors r <> []) /\ (status r = FAIL -> score r = 0%Q).
Proof.
  unfold validate_lab01. intros H.
  assert (Hearly : forall m, status (add_error m (set_verdict FAIL 0 r0)) = FAIL /\
                    errors (add_error m (set_verdict FAIL 0 r0)) <> [] /\
                    score (add_error m (set_verdict FAIL 0 r0)) = 0%Q).
  { intros m. simpl. repeat split. by destruct (errors r0). }
  destruct summary; try done.
  - injection H as <-. destruct (Hearly ENotFound) as (? & ? & ?). tauto.
  - destruct (has_parse_error d).
    + injection H as <-. destruct (Hearly EParseError) as (? & ? & ?). tauto.
    + destruct (structural_checks d spec r0) as [r1|]; simpl in H; [|done].
      injection H as <-. unfold final_verdict.
      destruct (errors r1) eqn:He; simpl; rewrite He; split; done.
Qed.

Section Report.

Variable re_compile_ignorecase : string -> option (string -> bool).

(** The report check leaves the verdict and the errors alone and appends
    at most its own warning. *)
Lemma validate_report_frame nb spec r r' :
  validate_report re_compile_ignorecase nb spec r = Ok r' ->
  student r' = student r /\ path r' = path r /\ lab r' = lab r /\
  status r' = status r /\ score r' = score r /\ errors r' = errors r /\
  (warnings r' = warnings r \/
   exists wc mn, warnings r' = warnings r ++ [WReportShort wc mn]).
Proof.
  unfold validate_report. intros H.
  destruct (_ || _); [injection H as <-; tauto|].
  destruct (find_markdown_section_text _ _ _) as [text|]; simpl in H; [|done].
  destruct (_ <? _)%Z; injection H as <-; simpl; [|tauto].
  repeat split; eauto.
Qed.

Lemma markdown_loop_spec rx nb : forall texts,
  markdown_loop rx nb texts = texts ++ (source <$> matching_cells rx nb).
Proof.
  unfold matching_cells.
  induction nb as [|c rest IH]; intros texts; cbn [markdown_loop].
  - simpl. by rewrite app_nil_r.
  - rewrite (filter_cons (fun c0 => cell_type c0 = "markdown" /\ rx (source c0) = true)).
    destruct (cell_type c =? "markdown") eqn:Hc; cbn [negb].
    + apply String.eqb_eq in Hc. destruct (rx (source c)) eqn:Hrx.
      * rewrite decide_True by done. rewrite IH, fmap_cons.
        by rewrite <- app_assoc.
      * rewrite decide_False by (intros [_ ?]; congruence). apply IH.
    + apply String.eqb_neq in Hc.
      rewrite decide_False by (intros [? _]; congruence). apply IH.
Qed.

End Report.

(** ** Scoring and the status invariant *)

(** The score [validate_lab01] sets counts the warnings of the structural
    checks: the report check runs after it and changes neither status nor
    score. *)
Lemma lab01_score_counts_structural_warnings re_compile d spec nb r0 r1 r :
  has_parse_error d = false ->
  validate_lab01 (VDict d) spec r0 = Ok r1 ->
  validate_report re_compile nb spec r1 = Ok r ->
  errors r = [] ->
  status r = PASS /\ score r = score_of_warnings (length (warnings r1)).
Proof.
  intros Hp Hv Hr He.
  destruct (validate_lab01_dict_inv _ _ _ _ Hp Hv) as (r' & _ & ->).
  destruct (validate_report_frame _ _ _ _ _ Hr) as (_ & _ & _ & -> & -> & Hee & _).
  rewrite Hee, final_verdict_errors in He.
  rewrite final_verdict_warnings. by apply final_verdict_pass.
Qed.

(** C1, at the failing input: a notebook whose only cell assigns the empty
    dict, graded against a spec asking for a five-word report. No error is
    recorded and the result carries one warning (the short report), yet the
    score is the one of zero warnings, 1.0, and not 0.95: the score is set
    before the report check appends its warning. *)
Theorem report_warning_not_scored :
  grade_submission literal_eval_sample re_compile_sample "lab01"
    report_only_spec sample_student sample_path
    (Some [code_cell "LAB_SUMMARY = {}"])
  = Ok (mkGradeResult sample_student sample_path "lab01" PASS
          (score_of_warnings 0) [] [WReportShort 0 5]) /\
  (score_of_warnings 0 == 1)%Q /\
  (score_of_warnings 1 == 0.95)%Q.
Proof. repeat split. Qed.

(** C2, counterexample: no cell assigns the variable, the spec asks for a
    report, and the result carries the report warning. *)
Lemma not_found_counterexample :
  extract_lab_summary literal_eval_sample [code_cell "x = 1"] "LAB_SUMMARY" = VNone /\
  grade_submission literal_eval_sample re_compile_sample "lab01"
    report_only_spec sample_student sample_path (Some [code_cell "x = 1"])
  = Ok (mkGradeResult sample_student sample_path "lab01" FAIL 0
          [ENotFound] [WReportShort 0 5]).
Proof. split; reflexivity. Qed.

(** C2, amended: when no block assigns the target variable, the submission
    gets status FAIL, score 0 and the single not-found error; [validate_lab01]
    skips every structural check and appends no warning; the report check
    still runs afterwards, so the warning list is empty or holds exactly the
    report warning. *)
Theorem not_found_fails literal_eval re_compile spec st p nb r :
  extract_lab_summary literal_eval nb (default "LAB_SUMMARY" (summary_var spec)) = VNone ->
  grade_submission literal_eval re_compile "lab01" spec st p (Some nb) = Ok r ->
  validate_lab01 VNone spec (new_result st p "lab01")
    = Ok (mkGradeResult st p "lab01" FAIL 0 [ENotFound] []) /\
  status r = FAIL /\ score r = 0%Q /\ errors r = [ENotFound] /\
  (warnings r = [] \/ exists wc mn, warnings r = [WReportShort wc mn]).
Proof.
  intros Hx Hg. split; [done|].
  unfold grade_submission in Hg. rewrite Hx in Hg. simpl in Hg.
  destruct (validate_report_frame _ _ _ _ _ Hg) as (_ & _ & _ & -> & -> & -> & Hw).
  simpl in *. repeat split. exact Hw.
Qed.

Lemma not_found_fails_witness :
  validate_lab01 VNone report_only_spec (new_result sample_student sample_path "lab01")
    = Ok (mkGradeResult sample_student sample_path "lab01" FAIL 0 [ENotFound] []) /\
  FAIL = FAIL /\ 0%Q = 0%Q /\ [ENotFound] = [ENotFound] /\
  ([WReportShort 0 5] = [] \/ exists wc mn, [WReportShort 0 5] = [WReportShort wc mn]).
Proof.
  exact (not_found_fails literal_eval_sample re_compile_sample report_only_spec
           sample_student sample_path [code_cell "x = 1"]
           (mkGradeResult sample_student sample_path "lab01" FAIL 0
              [ENotFound] [WReportShort 0 5])
           eq_refl eq_refl).
Defined.

(** C3: in every result the grading of one submission returns, the status
    is FAIL exactly when the error list is not empty, and a FAIL carries the
    score 0. *)
Theorem grade_result_invariant literal_eval re_compile lab_name spec st p nb r :
  grade_submission literal_eval re_compile lab_name spec st p nb = Ok r ->
  (status r = FAIL <-> errors r <> []) /\ (status r = FAIL -> score r = 0%Q).
Proof.
  unfold grade_submission. intros H.
  destruct nb as [nb|]; [|by injection H as <-].
  destruct (lab_name =? "lab01"); [|by injection H as <-].
  destruct (validate_lab01 _ _ _) as [r1|] eqn:Hv; simpl in H; [|done].
  destruct (validate_report_frame _ _ _ _ _ H) as (_ & _ & _ & -> & -> & -> & _).
  eapply validate_lab01_verdict, Hv.
Qed.

Lemma grade_result_invariant_witness :
  (FAIL = FAIL <-> [ENotFound] <> []) /\ (FAIL = FAIL -> 0%Q = 0%Q).
Proof.
  exact (grade_result_invariant literal_eval_sample re_compile_sample "lab01"
           report_only_spec sample_student sample_path
           (Some [code_cell "x = 1"])
           (mkGradeResult sample_student sample_path "lab01" FAIL 0
              [ENotFound] [WReportShort 0 5])
           eq_refl).
Defined.

(** ** Required keys *)

Lemma occurrences_not_in k keys : k ∉ keys -> occurrences k keys = 0.
Proof.
  unfold occurrences. induction keys as [|k' ks IH]; intros Hnotin; [done|].
  apply not_elem_of_cons in Hnotin as [Hne Hnotin].
  rewrite filter_cons, decide_False by congruence. by apply IH.
Qed.

Lemma occurrences_NoDup k keys :
  NoDup keys -> k ∈ keys -> occurrences k keys = 1.
Proof.
  induction 1 as [|k' ks Hnotin Hnd IH]; intros Hin.
  - by apply elem_of_nil in Hin.
  - unfold occurrences. rewrite filter_cons.
    destruct (decide (k' = k)) as [->|Hne]; simpl.
    + f_equal. by apply occurrences_not_in.
    + apply elem_of_cons in Hin as [->|Hin]; [done|]. by apply IH.
Qed.

(** C5, counterexample: a well-formed dict that carries a truthy
    [__parse_error__] entry omits the required key [pvalue] and gets no
    missing-key error; a key listed twice in [required_keys] and omitted gets
    two. *)
Lemma required_keys_counterexample :
  validate_lab01 (VDict {[ "__parse_error__" := VInt 1; "alpha" := VFloat (FFinite 0.25) ]})
    keys_only_spec (new_result sample_student sample_path "lab01")
  = Ok (mkGradeResult sample_student sample_path "lab01" FAIL 0 [EParseError] []) /\
  missing_key_count "pvalue" [EParseError] = 0 /\
  validate_lab01 (VDict ∅) (mkSpec None (Some ["pvalue"; "pvalue"]) None None)
    (new_result sample_student sample_path "lab01")
  = Ok (mkGradeResult sample_student sample_path "lab01" FAIL 0
          [EMissingKey "pvalue"; EMissingKey "pvalue"] []) /\
  missing_key_count "pvalue" [EMissingKey "pvalue"; EMissingKey "pvalue"] = 2.
Proof. repeat split. Qed.

(** C5, amended: for a summary that reaches the structural checks (a dict
    without a truthy [__parse_error__] entry), validation adds one
    missing-key error for every entry of [required_keys] the summary omits
    and none for a key that is present; with [required_keys] free of
    repetitions that is exactly one error per omitted key. Whenever a
    required key is omitted the status is FAIL and the score 0. *)
Theorem required_keys_reported d spec r0 r :
  validate_lab01 (VDict d) spec r0 = Ok r ->
  (has_parse_error d = false ->
   forall k,
     missing_key_count k (errors r) =
     missing_key_count k (errors r0) +
     match d !! k with
     | None => occurrences k (default [] (required_keys spec))
     | Some _ => 0
     end) /\
  (has_parse_error d = false ->
   forall k,
     NoDup (default [] (required_keys spec)) ->
     k ∈ default [] (required_keys spec) -> d !! k = None ->
     missing_key_count k (errors r) = missing_key_count k (errors r0) + 1) /\
  ((exists k, k ∈ default [] (required_keys spec) /\ d !! k = None) ->
   status r = FAIL /\ score r = 0%Q).
Proof.
  intros Hv.
  destruct (has_parse_error d) eqn:Hp.
  { split; [done|]. split; [done|]. intros _.
    unfold validate_lab01 in Hv. rewrite Hp in Hv. by injection Hv as <-. }
  destruct (validate_lab01_dict_inv _ _ _ _ Hp Hv) as (r1 & Hs & ->).
  destruct (structural_checks_grows _ _ _ _ Hs) as (es & ws & He & _ & Hk & _).
  simpl in He.
  assert (Hcount : forall k,
     missing_key_count k (errors (final_verdict r1)) =
     missing_key_count k (errors r0) +
     match d !! k with
     | None => occurrences k (default [] (required_keys spec))
     | Some _ => 0
     end).
  { intros k. rewrite final_verdict_errors, He, !missing_key_count_app, Hk.
    rewrite missing_key_count_require_keys. lia. }
  split; [intros _; exact Hcount|]. split.
  - intros _ k Hnd Hin Hnone. rewrite Hcount, Hnone.
    by rewrite occurrences_NoDup.
  - intros (k & Hin & Hnone). apply final_verdict_fail.
    rewrite He, require_keys_spec. intros Hnil.
    assert (Hm : EMissingKey k ∈ errors r0 ++
              map EMissingKey (filter (fun k => d !! k = None)
                                 (default [] (required_keys spec))) ++ es).
    { apply elem_of_app. right. apply elem_of_app. left.
      apply list_elem_of_fmap. exists k. split; [done|].
      by apply list_elem_of_filter. }
    rewrite <- app_assoc in Hnil. rewrite Hnil in Hm. by apply elem_of_nil in Hm.
Qed.

Lemma required_keys_reported_witness :
  missing_key_count "pvalue" [EMissingKey "pvalue"] = 0 + 1 /\
  missing_key_count "alpha" [EMissingKey "pvalue"] = 0 + 0 /\
  FAIL = FAIL /\ 0%Q = 0%Q.
Proof.
  pose proof (required_keys_reported {[ "alpha" := VFloat (FFinite 0.25) ]} keys_only_spec
                (new_result sample_student sample_path "lab01")
                (mkGradeResult sample_student sample_path "lab01" FAIL 0
                   [EMissingKey "pvalue"] [])
                eq_refl) as (Hcount & Hone & Hfail).
  split; [|split].
  - apply (Hone eq_refl "pvalue"); [|by apply list_elem_of_here|reflexivity].
    simpl. apply NoDup_cons. split; [|apply NoDup_singleton].
    intros Hin. apply list_elem_of_singleton in Hin. discriminate Hin.
  - exact (Hcount eq_refl "alpha").
  - apply Hfail. exists "pvalue". split; [apply list_elem_of_here|reflexivity].
Defined.

(** ** Numeric ranges *)











(** ** The parse-error key *)

(** C9: a summary that is a well-formed dict but maps [__parse_error__] to
    a truthy value is handled exactly as the unparseable sentinel: FAIL,
    score 0, the single parse error appended, and none of the structural
    checks run (nothing else is appended). *)
Theorem parse_error_key_taken_for_sentinel d spec r0 v :
  d !! "__parse_error__" = Some v -> truthy v = true ->
  validate_lab01 (VDict d) spec r0
    = Ok (add_error EParseError (set_verdict FAIL 0 r0)) /\
  validate_lab01 (VDict d) spec r0 = validate_lab01 parse_error_sentinel spec r0 /\
  (forall st p l,
     validate_lab01 (VDict d) spec (new_result st p l)
       = Ok (mkGradeResult st p l FAIL 0 [EParseError] [])).
Proof.
  intros Hd Hv.
  assert (Hp : has_parse_error d = true) by (unfold has_parse_error; by rewrite Hd).
  unfold validate_lab01. rewrite Hp. repeat split.
Qed.

Lemma parse_error_key_taken_for_sentinel_witness :
  validate_lab01
    (VDict {[ "__parse_error__" := VInt 1; "pvalue" := VFloat (FFinite 1.5) ]})
    keys_only_spec (new_result sample_student sample_path "lab01")
  = Ok (mkGradeResult sample_student sample_path "lab01" FAIL 0 [EParseError] []).
Proof.
  refine (proj1 (parse_error_key_taken_for_sentinel
                   {[ "__parse_error__" := VInt 1; "pvalue" := VFloat (FFinite 1.5) ]}
                   keys_only_spec (new_result sample_student sample_path "lab01")
                   (VInt 1) _ _)); reflexivity.
Defined.

(** ** The ordering of the confidence interval *)





(** ** The balanced-span locator and the first-match policy *)

(** C7, counterexample: the pattern matches, the literal is not valid, and
    its braces never balance; the extractor returns [None] for the block,
    not the unparseable sentinel. *)
Lemma unbalanced_span_counterexample :
  search_assignment "LAB_SUMMARY" "LAB_SUMMARY = {{}" = Some "{{}" /\
  literal_eval_sample "{{}" = None /\
  balanced_scan "{{}" 0 0 = None /\
  _extract_dict_literal_from_code literal_eval_sample "LAB_SUMMARY = {{}" "LAB_SUMMARY"
    = VNone /\
  VNone <> parse_error_sentinel.
Proof. repeat split. discriminate. Qed.

(** C7, amended: started at the index of an opening brace, the scan keeps
    the nesting depth (one up per opening brace, one down per closing brace)
    and returns the index one past the closing brace at which the depth
    first returns to zero; it reports not-found when the depth never returns
    to zero before the text ends. On not-found the extractor returns [None]
    for the block; when a balanced span is found it returns the value of
    that span, or the unparseable sentinel if evaluating the span fails. *)
Theorem balanced_span_locator literal_eval raw start :
  String.get start raw = Some lbrace ->
  match balanced_scan (drop_str start raw) start 0 with
  | Some e =>
      start < e <= String.length raw /\
      String.get (e - 1) raw = Some rbrace /\
      brace_depth (slice start e raw) = 0%Z /\
      forall e', start < e' < e -> (0 < brace_depth (slice start e' raw))%Z
  | None =>
      forall e', start < e' -> (0 < brace_depth (slice start e' raw))%Z
  end /\
  (forall code varname,
     search_assignment varname code = Some raw -> literal_eval raw = None ->
     _extract_dict_literal_from_code literal_eval code varname =
       match balanced_scan raw 0 0 with
       | None => VNone
       | Some e =>
           match literal_eval (slice 0 e raw) with
           | Some v => v
           | None => parse_error_sentinel
           end
       end).
Proof.
  intros Hget. split; [by apply balanced_scan_from_brace|].
  intros code varname Hs Hl.
  rewrite (extract_block_matched _ _ _ _ Hs), Hl. done.
Qed.

Lemma balanced_span_locator_witness :
  (0 < 7 <= String.length "{a{b}c}d}" /\
   String.get (7 - 1) "{a{b}c}d}" = Some rbrace /\
   brace_depth (slice 0 7 "{a{b}c}d}") = 0%Z /\
   forall e', 0 < e' < 7 -> (0 < brace_depth (slice 0 e' "{a{b}c}d}"))%Z) /\
  _extract_dict_literal_from_code literal_eval_sample "v = {a{b}c}d}" "v"
    = parse_error_sentinel.
Proof.
  pose proof (balanced_span_locator literal_eval_sample "{a{b}c}d}" 0 eq_refl)
    as [Hscan Hextract].
  split; [exact Hscan|].
  exact (Hextract "v = {a{b}c}d}" "v" eq_refl eq_refl).
Defined.

(** C4, counterexample: the first block matches the pattern but its literal
    neither evaluates nor balances. Alone it gives [None] although it holds
    a structural match; followed by a second assignment, the extractor
    returns the value of that later block. *)
Lemma first_match_counterexample :
  search_assignment "LAB_SUMMARY" "LAB_SUMMARY = {{}" = Some "{{}" /\
  search_assignment "LAB_SUMMARY" "LAB_SUMMARY = {}" = Some "{}" /\
  extract_lab_summary literal_eval_sample
    [code_cell "LAB_SUMMARY = {{}"] "LAB_SUMMARY" = VNone /\
  extract_lab_summary literal_eval_sample
    [code_cell "LAB_SUMMARY = {{}"; code_cell "LAB_SUMMARY = {}"] "LAB_SUMMARY"
    = VDict ∅.
Proof. repeat split. Qed.

(** C4, amended: the extractor returns what the first code block, in
    document order, that yields a value yields, and ignores the blocks after
    it; it returns [None] exactly when every code block yields [None]. A
    block that yields a value contains a structural match; a block whose
    matched literal neither evaluates nor has a balanced brace span yields
    [None] and is passed over like a block without a match. *)
Theorem extract_first_yielding_block literal_eval nb varname :
  extract_lab_summary literal_eval nb varname =
    match list_find (yields literal_eval varname) nb with
    | Some (_, c) => _extract_dict_literal_from_code literal_eval (source c) varname
    | None => VNone
    end /\
  (extract_lab_summary literal_eval nb varname = VNone <->
   forall c, c ∈ nb -> cell_type c = "code" ->
     _extract_dict_literal_from_code literal_eval (source c) varname = VNone) /\
  (forall c, yields literal_eval varname c ->
     exists raw, search_assignment varname (source c) = Some raw) /\
  (forall c raw,
     search_assignment varname (source c) = Some raw ->
     literal_eval raw = None -> balanced_scan raw 0 0 = None ->
     ~ yields literal_eval varname c).
Proof.
  split; [apply extract_lab_summary_find|].
  split; [apply extract_lab_summary_none|]. split.
  - intros c [_ Hy]. destruct (search_assignment varname (source c)) eqn:Hs; [eauto|].
    by rewrite extract_block_unmatched in Hy.
  - intros c raw Hs Hl Hb [_ Hy].
    by rewrite (extract_block_matched _ _ _ _ Hs), Hl, Hb in Hy.
Qed.

Lemma extract_first_yielding_block_witness :
  extract_lab_summary literal_eval_sample
    [markdown_cell "LAB_SUMMARY = {}"; code_cell "x = 1";
     code_cell "LAB_SUMMARY = {{}"; code_cell "LAB_SUMMARY = {}";
     code_cell "LAB_SUMMARY = {} + {}"] "LAB_SUMMARY" = VDict ∅ /\
  ~ yields literal_eval_sample "LAB_SUMMARY" (code_cell "LAB_SUMMARY = {{}").
Proof.
  pose proof (extract_first_yielding_block literal_eval_sample
                [markdown_cell "LAB_SUMMARY = {}"; code_cell "x = 1";
                 code_cell "LAB_SUMMARY = {{}"; code_cell "LAB_SUMMARY = {}";
                 code_cell "LAB_SUMMARY = {} + {}"] "LAB_SUMMARY")
    as (Hfind & _ & _ & Hskip).
  split; [exact Hfind|].
  exact (Hskip (code_cell "LAB_SUMMARY = {{}") "{{}" eq_refl eq_refl eq_refl).
Defined.

(** ** The section finder *)

Lemma join_blank_line texts : join blank_line texts = blank_line_separated texts.
Proof.
  induction texts as [|t rest IH]; [done|].
  destruct rest as [|t' rest]; [done|].
  change (join blank_line (t :: t' :: rest))
    with (t +:+ blank_line +:+ join blank_line (t' :: rest)).
  rewrite IH. reflexivity.
Qed.

(** C8: for a pattern that compiles, the section finder returns the texts of
    the markdown blocks in which the pattern matches, in document order, with
    a blank line (two line feeds) between neighbours, and with the white space
    at both ends of the whole removed; the result is the empty string when no
    block matches. *)
Theorem find_markdown_section_text_spec re_compile nb pattern rx :
  re_compile pattern = Some rx ->
  find_markdown_section_text re_compile nb pattern
    = Ok (strip (blank_line_separated (source <$> matching_cells rx nb))) /\
  (matching_cells rx nb = [] ->
   find_markdown_section_text re_compile nb pattern = Ok "") /\
  (forall text,
     find_markdown_section_text re_compile nb pattern = Ok text ->
     trimmed text /\
     exists a b,
       blank_line_separated (source <$> matching_cells rx nb) = a +:+ text +:+ b /\
       all_space a = true /\ all_space b = true).
Proof.
  intros Hrx. unfold find_markdown_section_text. rewrite Hrx.
  rewrite markdown_loop_spec. simpl app. rewrite join_blank_line.
  split; [done|]. split.
  - intros ->. done.
  - intros text [= <-]. split; [apply strip_trimmed|apply strip_split].
Qed.

Lemma find_markdown_section_text_spec_witness :
  find_markdown_section_text re_compile_sample
    [markdown_cell " Mini reporte uno "; code_cell "reporte";
     markdown_cell "otra cosa"; markdown_cell " REPORTE dos "] "Reporte"
  = Ok "Mini reporte uno 

 REPORTE dos".
Proof.
  refine (proj1 (find_markdown_section_text_spec re_compile_sample
                   [markdown_cell " Mini reporte uno "; code_cell "reporte";
                    markdown_cell "otra cosa"; markdown_cell " REPORTE dos "]
                   "Reporte" _ eq_refl)).
Defined.

(** * Further properties of the code *)

(** ** The assignment pattern: what a match looks like *)

Lemma append_assoc3 (a b c : string) : (a +:+ b) +:+ c = a +:+ (b +:+ c).
Proof. induction a as [|x a IH]; [done|]. by rewrite !append_cons, IH. Qed.

Lemma strip_prefix_spec p s s1 : strip_prefix p s = Some s1 <-> s = p +:+ s1.
Proof.
  revert s. induction p as [|a p IH]; intros s; simpl.
  - rewrite append_empty. split; [by intros [= ->]|by intros ->].
  - destruct s as [|b s]; [done|]. rewrite ?append_cons.
    destruct (Ascii.eqb a b) eqn:Hab.
    + apply Ascii.eqb_eq in Hab as ->. rewrite IH.
      split; [by intros ->|by intros [= ->]].
    + apply Ascii.eqb_neq in Hab. split; [done|]. intros [= <- _]. done.
Qed.

Lemma all_space_blank_to_eol ws : all_space ws = true -> blank_to_eol ws = true.
Proof.
  induction ws as [|c r IH]; simpl; [done|].
  intros [Hc Hr]%andb_true_iff. rewrite Hc.
  destruct (Ascii.eqb c newline); [done|by apply IH].
Qed.

Lemma lstrip_all_space_app ws s :
  all_space ws = true -> lstrip (ws +:+ s) = lstrip s.
Proof.
  induction ws as [|c r IH]; [done|].
  simpl. intros [Hc Hr]%andb_true_iff. rewrite ?append_cons. simpl.
  rewrite Hc. by apply IH.
Qed.

Lemma lstrip_non_space c s : is_space c = false -> lstrip (String c s) = String c s.
Proof. intros H. simpl. by rewrite H. Qed.

Lemma rbrace_not_space c : Ascii.eqb c rbrace = true -> is_space c = false.
Proof. intros ->%Ascii.eqb_eq. reflexivity. Qed.

Lemma greedy_close_all_space ws : all_space ws = true -> greedy_close ws = None.
Proof.
  induction ws as [|c r IH]; simpl; [done|].
  intros [Hc Hr]%andb_true_iff. rewrite IH by done.
  destruct (Ascii.eqb c rbrace) eqn:Hb; [|done].
  apply rbrace_not_space in Hb. congruence.
Qed.

Lemma greedy_close_last body ws :
  all_space ws = true ->
  greedy_close (body +:+ String rbrace ws) = Some (S (String.length body)).
Proof.
  intros Hws. induction body as [|c r IH].
  - rewrite append_empty. simpl.
    rewrite (greedy_close_all_space _ Hws), (all_space_blank_to_eol _ Hws). done.
  - rewrite append_cons. simpl. by rewrite IH.
Qed.

Lemma greedy_close_spec s n :
  greedy_close s = Some n ->
  exists body post,
    s = body +:+ String rbrace post /\ n = S (String.length body) /\
    blank_to_eol post = true.
Proof.
  revert n. induction s as [|c r IH]; simpl; [done|]. intros n.
  destruct (greedy_close r) as [m|].
  - intros [= <-]. destruct (IH m eq_refl) as (body & post & -> & -> & Hpost).
    exists (String c body), post. by rewrite append_cons.
  - destruct (Ascii.eqb c rbrace) eqn:Hc; simpl; [|done].
    destruct (blank_to_eol r) eqn:Hr; [|done]. intros [= <-].
    apply Ascii.eqb_eq in Hc as ->. by exists "", r.
Qed.

Lemma take_str_app_rbrace body post :
  take_str (S (String.length body)) (body +:+ String rbrace post)
  = body +:+ String rbrace "".
Proof.
  induction body as [|c r IH]; [done|].
  rewrite !append_cons. simpl String.length. rewrite take_str_S. by rewrite IH.
Qed.

Lemma search_assignment_head varname code raw :
  match_assignment varname code = Some raw ->
  search_assignment varname code = Some raw.
Proof. intros H. destruct code; simpl; by rewrite H. Qed.

Lemma match_assignment_shape varname s raw :
  match_assignment varname s = Some raw ->
  exists ws1 ws2 body post,
    s = varname +:+ ws1 +:+ String equals_sign
          (ws2 +:+ String lbrace (body +:+ String rbrace post)) /\
    raw = String lbrace (body +:+ String rbrace "") /\
    all_space ws1 = true /\ all_space ws2 = true /\ blank_to_eol post = true.
Proof.
  unfold match_assignment.
  destruct (strip_prefix varname s) as [s1|] eqn:Hp; [|done].
  apply strip_prefix_spec in Hp as ->.
  destruct (lstrip_split s1) as (ws1 & Hs1 & Hws1).
  destruct (lstrip s1) as [|c1 s2]; [done|].
  destruct (Ascii.eqb c1 equals_sign) eqn:Hc1; [|done].
  apply Ascii.eqb_eq in Hc1 as ->.
  destruct (lstrip_split s2) as (ws2 & Hs2 & Hws2).
  destruct (lstrip s2) as [|c2 s3]; [done|].
  destruct (Ascii.eqb c2 lbrace) eqn:Hc2; [|done].
  apply Ascii.eqb_eq in Hc2 as ->.
  destruct (greedy_close s3) as [n|] eqn:Hg; [|done].
  intros [= <-].
  destruct (greedy_close_spec _ _ Hg) as (body & post & -> & -> & Hpost).
  exists ws1, ws2, body, post. rewrite take_str_app_rbrace.
  repeat split; try done. by rewrite Hs1, Hs2 at 1.
Qed.

(** X1: the span the extractor hands to the evaluator is a part of the cell
    that opens with a brace and closes with a brace, stands right after the
    variable name, an equals sign and optional blanks around it, and is
    followed only by blanks up to the end of its line. *)
Theorem search_assignment_shape varname code raw :
  search_assignment varname code = Some raw ->
  exists pre ws1 ws2 body post,
    code = pre +:+ varname +:+ ws1 +:+ String equals_sign
             (ws2 +:+ String lbrace (body +:+ String rbrace post)) /\
    raw = String lbrace (body +:+ String rbrace "") /\
    all_space ws1 = true /\ all_space ws2 = true /\ blank_to_eol post = true.
Proof.
  induction code as [|c rest IH]; simpl.
  - destruct (match_assignment varname "") eqn:Hm; [|done]. intros [= <-].
    destruct (match_assignment_shape _ _ _ Hm) as (ws1 & ws2 & body & post & H).
    exists "", ws1, ws2, body, post. by rewrite append_empty.
  - destruct (match_assignment varname (String c rest)) eqn:Hm.
    + intros [= <-].
      destruct (match_assignment_shape _ _ _ Hm) as (ws1 & ws2 & body & post & H).
      exists "", ws1, ws2, body, post. by rewrite append_empty.
    + intros H. destruct (IH H) as (pre & ws1 & ws2 & body & post & -> & Hrest).
      exists (String c pre), ws1, ws2, body, post. by rewrite append_cons.
Qed.

Lemma search_assignment_shape_witness :
  exists pre ws1 ws2 body post,
    "x = 1; LAB_SUMMARY  = {'a': 1}  " =
      pre +:+ "LAB_SUMMARY" +:+ ws1 +:+ String equals_sign
        (ws2 +:+ String lbrace (body +:+ String rbrace post)) /\
    "{'a': 1}" = String lbrace (body +:+ String rbrace "") /\
    all_space ws1 = true /\ all_space ws2 = true /\ blank_to_eol post = true.
Proof.
  exact (search_assignment_shape "LAB_SUMMARY" "x = 1; LAB_SUMMARY  = {'a': 1}  "
           "{'a': 1}" eq_refl).
Defined.

(** X2: a cell that consists of the variable name, an equals sign, a literal
    in braces and blanks around them hands the whole literal to the
    evaluator, and when the literal evaluates the block yields its value. *)
Theorem search_assignment_exact varname ws1 ws2 body ws3 :
  all_space ws1 = true -> all_space ws2 = true -> all_space ws3 = true ->
  search_assignment varname
    (varname +:+ ws1 +:+ String equals_sign
       (ws2 +:+ String lbrace (body +:+ String rbrace ws3)))
  = Some (String lbrace (body +:+ String rbrace "")) /\
  (forall literal_eval v,
     literal_eval (String lbrace (body +:+ String rbrace "")) = Some v ->
     _extract_dict_literal_from_code literal_eval
       (varname +:+ ws1 +:+ String equals_sign
          (ws2 +:+ String lbrace (body +:+ String rbrace ws3))) varname = v).
Proof.
  intros H1 H2 H3.
  assert (Hs : search_assignment varname
    (varname +:+ ws1 +:+ String equals_sign
       (ws2 +:+ String lbrace (body +:+ String rbrace ws3)))
    = Some (String lbrace (body +:+ String rbrace ""))).
  { apply search_assignment_head. unfold match_assignment.
    rewrite (proj2 (strip_prefix_spec varname _ _) eq_refl).
    rewrite (lstrip_all_space_app _ _ H1).
    rewrite (lstrip_non_space equals_sign) by reflexivity.
    rewrite Ascii.eqb_refl, (lstrip_all_space_app _ _ H2).
    rewrite (lstrip_non_space lbrace) by reflexivity.
    rewrite Ascii.eqb_refl, (greedy_close_last _ _ H3), take_str_app_rbrace.
    done. }
  split; [exact Hs|]. intros literal_eval v Hv.
  by rewrite (extract_block_matched _ _ _ _ Hs), Hv.
Qed.

Lemma search_assignment_exact_witness :
  search_assignment "LAB_SUMMARY"
    ("LAB_SUMMARY" +:+ " " +:+ String equals_sign
       (" " +:+ String lbrace ("" +:+ String rbrace (String newline ""))))
  = Some (String lbrace ("" +:+ String rbrace "")).
Proof.
  exact (proj1 (search_assignment_exact "LAB_SUMMARY" " " " " "" (String newline "")
                  eq_refl eq_refl eq_refl)).
Defined.

(** ** The extractor over a whole notebook *)

(** X3: the extractor reads a notebook cell by cell: on two notebooks put
    one after the other it gives what the first one gives unless that is
    [None], and then what the second one gives; cells that are not code
    cells change nothing. *)
Theorem extract_lab_summary_app literal_eval nb1 nb2 varname :
  extract_lab_summary literal_eval (nb1 ++ nb2) varname =
    (if is_none (extract_lab_summary literal_eval nb1 varname)
     then extract_lab_summary literal_eval nb2 varname
     else extract_lab_summary literal_eval nb1 varname) /\
  extract_lab_summary literal_eval
    (filter (fun c => cell_type c = "code") nb1) varname
  = extract_lab_summary literal_eval nb1 varname.
Proof.
  split.
  - induction nb1 as [|c rest IH]; [done|].
    rewrite <- app_comm_cons. cbn [extract_lab_summary].
    destruct (negb (cell_type c =? "code")); [exact IH|].
    destruct (_extract_dict_literal_from_code literal_eval (source c) varname);
      first [exact IH | done].
  - induction nb1 as [|c rest IH]; [done|].
    rewrite filter_cons. cbn [extract_lab_summary].
    destruct (cell_type c =? "code") eqn:Hc; simpl.
    + apply String.eqb_eq in Hc. rewrite decide_True by done.
      cbn [extract_lab_summary]. rewrite Hc. simpl. by rewrite IH.
    + apply String.eqb_neq in Hc. by rewrite decide_False.
Qed.

(** ** Key and shape validators *)

(** X4: [require_keys] returns no error exactly when every listed key is in
    the dict; it reports a key exactly when the key is listed and absent, and
    reports nothing but missing keys. *)
Theorem require_keys_complete d keys :
  (require_keys d keys = [] <-> forall k, k ∈ keys -> is_Some (d !! k)) /\
  (forall k, EMissingKey k ∈ require_keys d keys <-> k ∈ keys /\ d !! k = None) /\
  (forall m, m ∈ require_keys d keys -> exists k, m = EMissingKey k).
Proof.
  rewrite require_keys_spec.
  assert (Hin : forall k, EMissingKey k ∈
            map EMissingKey (filter (fun k => d !! k = None) keys)
            <-> k ∈ keys /\ d !! k = None).
  { intros k. rewrite list_elem_of_fmap. split.
    - intros (k' & [= <-] & Hk). apply list_elem_of_filter in Hk. tauto.
    - intros [Hk Hn]. exists k. split; [done|]. by apply list_elem_of_filter. }
  split; [|split; [exact Hin|]].
  - split.
    + intros Hnil k Hk. destruct (d !! k) eqn:Hd; [by eexists|].
      assert (Hm : EMissingKey k ∈
                map EMissingKey (filter (fun k => d !! k = None) keys))
        by (by apply Hin).
      rewrite Hnil in Hm. by apply elem_of_nil in Hm.
    + intros Hall.
      destruct (map EMissingKey (filter (fun k => d !! k = None) keys))
        as [|m l] eqn:Hl; [done|].
      assert (Hm : m ∈ map EMissingKey (filter (fun k => d !! k = None) keys))
        by (rewrite Hl; apply list_elem_of_here).
      apply list_elem_of_fmap in Hm as (k & -> & Hk).
      apply list_elem_of_filter in Hk as [Hn Hk].
      destruct (Hall k Hk) as [v Hv]. congruence.
  - intros m Hm. apply list_elem_of_fmap in Hm as (k & -> & _). eauto.
Qed.

Lemma require_keys_complete_witness :
  exists k, EMissingKey "pvalue" = EMissingKey k.
Proof.
  refine (proj2 (proj2 (require_keys_complete {[ "alpha" := VFloat (FFinite 0.25) ]}
                          ["pvalue"; "alpha"])) (EMissingKey "pvalue") _).
  apply list_elem_of_here.
Defined.

(** X5: [require_list_len] accepts a field exactly when it is absent or
    holds a list or a tuple of the required length; every other value (a
    set, a string, a dict, a sequence of another length) is reported. *)
Theorem require_list_len_spec d key n :
  require_list_len d key n = None <->
  d !! key = None \/
  exists l, (d !! key = Some (VList l) \/ d !! key = Some (VTuple l)) /\
            length l = n.
Proof.
  unfold require_list_len. destruct (d !! key) as [v|]; [|by split; [left|]].
  split.
  - destruct v; simpl; try done.
    all: destruct (length l =? n)%nat eqn:Hl; [|done]; intros _;
      apply Nat.eqb_eq in Hl; right; exists l; eauto.
  - intros [|[l [[[= ->]|[= ->]] <-]]]; [done| |]; simpl; by rewrite Nat.eqb_refl.
Qed.

(** ** Counting words *)

Lemma lstrip_empty_iff s : lstrip s = "" <-> all_space s = true.
Proof.
  induction s as [|c r IH]; simpl; [done|].
  destruct (is_space c); simpl; [exact IH|]. split; done.
Qed.

Lemma rstrip_empty_iff s : rstrip s = "" <-> all_space s = true.
Proof.
  induction s as [|c r IH]; simpl; [done|].
  destruct (rstrip r) as [|c' r'] eqn:Hr.
  - destruct (is_space c); simpl; [|split; done].
    split; [intros _; by apply IH|done].
  - split; [done|]. intros [_ Hs]%andb_true_iff. apply IH in Hs. done.
Qed.

Lemma strip_empty_iff s : strip s = "" <-> all_space s = true.
Proof.
  unfold strip. rewrite rstrip_empty_iff. split.
  - intros Hl. apply lstrip_empty_iff.
    destruct (lstrip s) as [|c r] eqn:Hs; [done|].
    assert (Hc : is_space c = false) by (apply (lstrip_head s); by rewrite Hs).
    simpl in Hl. by rewrite Hc in Hl.
  - intros Hs. apply lstrip_empty_iff in Hs. by rewrite Hs.
Qed.

Lemma all_space_replace_newlines s :
  all_space (replace_newlines s) = all_space s.
Proof.
  induction s as [|c r IH]; simpl; [done|]. rewrite IH.
  destruct (Ascii.eqb c newline) eqn:Hc; [|done].
  by apply Ascii.eqb_eq in Hc as ->.
Qed.

Lemma split_blank_nonempty s : split_blank s <> [].
Proof.
  induction s as [|c r IH]; simpl; [done|].
  destruct (Ascii.eqb c space); [done|]. by destruct (split_blank r).
Qed.

Lemma split_blank_all_space s :
  Forall (fun w => all_space w = true) (split_blank s) <-> all_space s = true.
Proof.
  induction s as [|c r IH]; simpl.
  - split; [done|]. intros _. by repeat constructor.
  - destruct (Ascii.eqb c space) eqn:Hc.
    + apply Ascii.eqb_eq in Hc as ->. simpl. rewrite <- IH. split.
      * by intros [_ H]%Forall_cons.
      * intros H. by constructor.
    + destruct (split_blank r) as [|w ws] eqn:Hr;
        [by destruct (split_blank_nonempty r)|].
      rewrite andb_true_iff, <- IH, !Forall_cons. simpl.
      rewrite andb_true_iff. tauto.
Qed.

Lemma count_words_pieces text :
  count_words text =
  length (filter (fun w => strip w ≠ "") (split_blank (replace_newlines text))).
Proof. unfold count_words. by destruct text. Qed.

(** X6: a text counts zero words exactly when it is empty or made of white
    space only; with one character that is not white space it counts at
    least one word. *)
Theorem count_words_zero_iff text :
  count_words text = 0 <-> all_space text = true.
Proof.
  rewrite count_words_pieces, <- all_space_replace_newlines, <- split_blank_all_space.
  generalize (split_blank (replace_newlines text)). intros l.
  induction l as [|w ws IH]; [split; [by constructor|done]|].
  rewrite filter_cons, Forall_cons.
  destruct (decide (strip w ≠ "")) as [Hw|Hw]; simpl.
  - split; [done|]. intros [Hs _]. apply strip_empty_iff in Hs. done.
  - rewrite IH. apply dec_stable in Hw. apply strip_empty_iff in Hw. tauto.
Qed.

Lemma replace_newlines_app a b :
  replace_newlines (a +:+ b) = replace_newlines a +:+ replace_newlines b.
Proof.
  induction a as [|c r IH]; [done|].
  rewrite append_cons. simpl. by rewrite IH.
Qed.

Lemma split_blank_app a b :
  split_blank (a +:+ String space b) = split_blank a ++ split_blank b.
Proof.
  induction a as [|c r IH]; [done|].
  rewrite append_cons. simpl. rewrite IH.
  destruct (Ascii.eqb c space); [done|].
  destruct (split_blank r) as [|w ws] eqn:Hr; [by destruct (split_blank_nonempty r)|].
  done.
Qed.

(** X7: words never straddle a blank or a newline: the word count of two
    texts joined by one blank, or by one newline, is the sum of their word
    counts. *)
Theorem count_words_join a b :
  count_words (a +:+ String space b) = count_words a + count_words b /\
  count_words (a +:+ String newline b) = count_words a + count_words b.
Proof.
  rewrite !count_words_pieces, !replace_newlines_app.
  change (replace_newlines (String space b)) with (String space (replace_newlines b)).
  change (replace_newlines (String newline b)) with (String space (replace_newlines b)).
  by rewrite split_blank_app, filter_app, length_app.
Qed.

(** ** The score *)

(** X8: the score of a passing result lies between 0.7 and 1.0, never grows
    with one more warning, loses 0.05 per warning up to six warnings and
    stays at 0.7 from six warnings on. *)
Theorem score_of_warnings_bounds w :
  (0.7 <= score_of_warnings w)%Q /\
  (score_of_warnings w <= 1)%Q /\
  (score_of_warnings (S w) <= score_of_warnings w)%Q /\
  (w <= 6 -> (score_of_warnings w == 1 - 0.05 * inject_Z (Z.of_nat w))%Q) /\
  (6 <= w -> (score_of_warnings w == 0.7)%Q).
Proof.
  assert (Hcases : forall n,
    (n <= 6 /\ score_of_warnings n = (1.0 - 0.05 * inject_Z (Z.of_nat n))%Q) \/
    (6 <= n /\ score_of_warnings n = 0.7%Q)).
  { intros n. unfold score_of_warnings, py_max.
    destruct (Qle_bool _ _) eqn:Hle.
    - right. split; [|done]. apply Qle_bool_iff in Hle.
      unfold Qle in Hle. simpl in Hle. lia.
    - left. split; [|done].
      destruct (le_gt_dec n 6) as [|Hgt]; [done|]. exfalso.
      assert (Hle' : Qle_bool (1.0 - 0.05 * inject_Z (Z.of_nat n)) 0.7 = true).
      { apply Qle_bool_iff. unfold Qle. simpl. lia. }
      congruence. }
  assert (Hlin : forall n, ((1.0 - 0.05 * inject_Z (Z.of_nat n))%Q ==
                            1 - 0.05 * inject_Z (Z.of_nat n))%Q).
  { intros n. unfold Qeq. simpl. lia. }
  repeat split.
  - destruct (Hcases w) as [[Hw ->]|[Hw ->]]; unfold Qle; simpl; lia.
  - destruct (Hcases w) as [[Hw ->]|[Hw ->]]; unfold Qle; simpl; lia.
  - destruct (Hcases w) as [[Hw ->]|[Hw ->]], (Hcases (S w)) as [[Hw' ->]|[Hw' ->]];
      unfold Qle; simpl; lia.
  - intros Hw. destruct (Hcases w) as [[_ ->]|[Hw' ->]]; [apply Hlin|].
    assert (w = 6) as -> by lia. reflexivity.
  - intros Hw. destruct (Hcases w) as [[Hw' ->]|[_ ->]]; [|reflexivity].
    assert (w = 6) as -> by lia. reflexivity.
Qed.

Lemma score_of_warnings_bounds_witness :
  (score_of_warnings 3 == 1 - 0.05 * inject_Z (Z.of_nat 3))%Q /\
  (score_of_warnings 9 == 0.7)%Q.
Proof.
  split.
  - apply (score_of_warnings_bounds 3). repeat constructor.
  - apply (score_of_warnings_bounds 9). repeat constructor.
Defined.

(** ** When validation raises, and what it leaves alone *)








Lemma check_ranges_identity d rl r r' :
  check_ranges d rl r = Ok r' -> path r' = path r /\ lab r' = lab r.
Proof.
  unfold check_ranges, add_error_opt. intros H. cbv [mbind res_bind] in H.
  repeat (case_match; simpl in H; try done); by simplify_eq.
Qed.

Lemma check_clean_shape_identity d rl r r' :
  check_clean_shape d rl r = Ok r' -> path r' = path r /\ lab r' = lab r.
Proof.
  unfold check_clean_shape. intros H. cbv [mbind res_bind] in H.
  repeat (case_match; simpl in H; try done); by simplify_eq.
Qed.

Lemma check_effect_identity d r :
  path (check_effect d r) = path r /\ lab (check_effect d r) = lab r.
Proof. unfold check_effect. by repeat case_match. Qed.

Lemma check_ci_identity d rl r r' :
  check_ci d rl r = Ok r' -> path r' = path r /\ lab r' = lab r.
Proof.
  unfold check_ci. intros H. cbv [mbind res_bind] in H.
  repeat (case_match; simpl in H; try done); by simplify_eq.
Qed.

Lemma check_dashboard_identity d rl r r' :
  check_dashboard d rl r = Ok r' -> path r' = path r /\ lab r' = lab r.
Proof.
  unfold check_dashboard. intros H.
  repeat (case_match; simpl in H; try done); by simplify_eq.
Qed.

Lemma check_student_identity d r :
  path (check_student d r) = path r /\ lab (check_student d r) = lab r.
Proof. unfold check_student. by repeat case_match. Qed.

Lemma structural_checks_identity d spec r0 r :
  structural_checks d spec r0 = Ok r -> path r = path r0 /\ lab r = lab r0.
Proof.
  intros H.
  destruct (structural_checks_steps _ _ _ _ H)
    as (r1 & r2 & r3 & r4 & H1 & H2 & H3 & H4 & ->).
  destruct (check_student_identity d r4) as [-> ->].
  destruct (check_dashboard_identity _ _ _ _ H4) as [-> ->].
  destruct (check_ci_identity _ _ _ _ H3) as [-> ->].
  destruct (check_effect_identity d r2) as [-> ->].
  destruct (check_clean_shape_identity _ _ _ _ H2) as [-> ->].
  destruct (check_ranges_identity _ _ _ _ H1) as [-> ->].
  done.
Qed.

Lemma final_verdict_identity r :
  student (final_verdict r) = student r /\ path (final_verdict r) = path r /\
  lab (final_verdict r) = lab r.
Proof. unfold final_verdict. by destruct (errors r). Qed.

Lemma validate_lab01_frame summary spec r0 r :
  validate_lab01 summary spec r0 = Ok r ->
  student r = student r0 /\ path r = path r0 /\ lab r = lab r0 /\
  (exists es, errors r = errors r0 ++ es) /\
  (exists ws, warnings r = warnings r0 ++ ws).
Proof.
  unfold validate_lab01. intros H.
  assert (Hearly : forall m,
    let r := add_error m (set_verdict FAIL 0 r0) in
    student r = student r0 /\ path r = path r0 /\ lab r = lab r0 /\
    (exists es, errors r = errors r0 ++ es) /\
    (exists ws, warnings r = warnings r0 ++ ws)).
  { intros m. simpl. repeat split; [by exists [m]|]. exists []. by rewrite app_nil_r. }
  destruct summary; try done.
  - injection H as <-. apply Hearly.
  - destruct (has_parse_error d); [injection H as <-; apply Hearly|].
    destruct (structural_checks d spec r0) as [r1|] eqn:Hs; simpl in H; [|done].
    injection H as <-.
    destruct (final_verdict_identity r1) as (-> & -> & ->).
    rewrite final_verdict_errors, final_verdict_warnings.
    destruct (structural_checks_identity _ _ _ _ Hs) as [-> ->].
    destruct (structural_checks_grows _ _ _ _ Hs) as (es & ws & He & Hw & _ & Hst).
    simpl in He, Hw, Hst. repeat split; [done| |by exists ws].
    exists (require_keys d (default [] (required_keys spec)) ++ es).
    by rewrite He, app_assoc.
Qed.

(** X10: validation only ever adds to a result: the student, path and lab
    of the record are untouched, and the errors and warnings it held before
    are still there, in front of the new ones. *)
Theorem validate_lab01_accumulates summary spec r0 r :
  validate_lab01 summary spec r0 = Ok r ->
  student r = student r0 /\ path r = path r0 /\ lab r = lab r0 /\
  (exists es, errors r = errors r0 ++ es) /\
  (exists ws, warnings r = warnings r0 ++ ws).
Proof. apply validate_lab01_frame. Qed.

Lemma validate_lab01_accumulates_witness :
  sample_student = sample_student /\ sample_path = sample_path /\
  "lab01" = "lab01" /\
  (exists es, [ECIOrder; EMissingKey "pvalue"] = [ECIOrder] ++ es) /\
  (exists ws, @nil msg = [] ++ ws).
Proof.
  exact (validate_lab01_accumulates (VDict ∅)
           (mkSpec None (Some ["pvalue"]) None None)
           (mkGradeResult sample_student sample_path "lab01" PASS 1 [ECIOrder] [])
           (mkGradeResult sample_student sample_path "lab01" FAIL 0
              [ECIOrder; EMissingKey "pvalue"] [])
           eq_refl).
Defined.

(** X11: optional fields that are absent are not penalised: for a dict
    summary without any of the fields the structural checks look at,
    validation records the missing required keys and nothing else; with no
    required key at all a fresh result passes with the full score. *)
Theorem absent_optional_fields_not_penalised d spec r0 :
  d !! "__parse_error__" = None -> d !! "pvalue" = None -> d !! "alpha" = None ->
  d !! "clean_shape" = None -> d !! "effect" = None ->
  d !! "bootstrap_ci_diff" = None -> d !! "dashboard" = None ->
  d !! "student" = None ->
  validate_lab01 (VDict d) spec r0
    = Ok (final_verdict
            (extend_errors (require_keys d (default [] (required_keys spec))) r0)) /\
  (default [] (required_keys spec) = [] ->
   forall st p l,
     validate_lab01 (VDict d) spec (new_result st p l)
       = Ok (mkGradeResult st p l PASS (score_of_warnings 0) [] [])).
Proof.
  intros Hpe Hpv Hal Hcs Hef Hci Hda Hst.
  assert (Hv : forall r, validate_lab01 (VDict d) spec r
    = Ok (final_verdict
            (extend_errors (require_keys d (default [] (required_keys spec))) r))).
  { intros r.
    unfold validate_lab01, has_parse_error, structural_checks, check_ranges,
      require_number_range, check_clean_shape, check_effect, check_ci,
      check_dashboard, check_student.
    rewrite Hpe, Hpv, Hal, Hcs, Hef, Hci, Hda. simpl. by rewrite Hst. }
  split; [apply Hv|]. intros Hreq st p l. by rewrite Hv, Hreq.
Qed.

Lemma absent_optional_fields_not_penalised_witness :
  validate_lab01 (VDict {[ "note" := VStr "sin datos" ]})
    (mkSpec None None (Some (mkRules (Some (FFinite 0, FFinite 1)) None (Some 10%Z) None
                               (Some ["region"]) (Some 2%Z))) None)
    (new_result sample_student sample_path "lab01")
  = Ok (mkGradeResult sample_student sample_path "lab01" PASS
          (score_of_warnings 0) [] []).
Proof.
  refine (proj2 (absent_optional_fields_not_penalised
                   {[ "note" := VStr "sin datos" ]}
                   (mkSpec None None
                      (Some (mkRules (Some (FFinite 0, FFinite 1)) None (Some 10%Z) None
                               (Some ["region"]) (Some 2%Z))) None)
                   (new_result sample_student sample_path "lab01")
                   _ _ _ _ _ _ _ _) _ sample_student sample_path "lab01");
    reflexivity.
Defined.

(** ** The dashboard's required filters *)

Lemma str_in_elem_of k fl : str_in k fl = true <-> VStr k ∈ fl.
Proof.
  unfold str_in. induction fl as [|v rest IH]; simpl.
  - split; [done|]. intros H. by apply elem_of_nil in H.
  - rewrite orb_true_iff, IH, elem_of_cons.
    destruct v; try (split; [intros [|]; [done|by right]|intros [|]; [done|by right]]).
    split.
    + intros [->%String.eqb_eq|]; [by left|by right].
    + intros [[= ->]|]; [left; apply String.eqb_refl|by right].
Qed.

(** X12: the filters reported as missing are exactly the required filters
    that the supplied list does not contain as a string; each is reported
    once, and they come in increasing order. *)
Theorem missing_filters_spec filters_req filters :
  (forall k, k ∈ missing_filters filters_req filters <->
             k ∈ filters_req /\ VStr k ∉ filters) /\
  NoDup (missing_filters filters_req filters) /\
  Sorted (fun a b => Is_true (a <=? b)) (missing_filters filters_req filters).
Proof.
  unfold missing_filters. split; [|split].
  - intros k. rewrite merge_sort_Permutation, list_elem_of_filter,
      elem_of_remove_dups, <- str_in_elem_of.
    destruct (str_in k filters); split; intros [H1 H2]; split; done.
  - rewrite merge_sort_Permutation. apply NoDup_filter, NoDup_remove_dups.
  - apply Sorted_merge_sort. intros a b.
    destruct (leb_total a b) as [H|H]; [left|right]; by apply Is_true_true.
Qed.

(** ** The report check *)

Section ReportCheck.

Variable re_compile_ignorecase : string -> option (string -> bool).

(** X13: the report check is advisory: whatever it returns has the status,
    score and errors it was given and at most one more warning. It does
    nothing at all, and does not even compile the pattern, when the spec
    gives no heading pattern (or an empty one) or no positive minimum; it
    raises only when it is active and the pattern does not compile. *)
Theorem validate_report_advisory nb spec r :
  (forall r',
     validate_report re_compile_ignorecase nb spec r = Ok r' ->
     status r' = status r /\ score r' = score r /\ errors r' = errors r /\
     (warnings r' = warnings r \/
      exists wc mn, warnings r' = warnings r ++ [WReportShort wc mn])) /\
  (default "" (require_markdown_title_regex (default no_report (report spec))) = ""
   \/ (default 0 (min_words_in_report_cell (default no_report (report spec))) <= 0)%Z ->
   validate_report re_compile_ignorecase nb spec r = Ok r) /\
  (forall e,
     validate_report re_compile_ignorecase nb spec r = Raise e ->
     e = ReError /\
     re_compile_ignorecase
       (default "" (require_markdown_title_regex (default no_report (report spec))))
     = None).
Proof.
  split; [|split].
  - intros r' H.
    destruct (validate_report_frame _ _ _ _ _ H) as (_ & _ & _ & ? & ? & ? & ?).
    done.
  - unfold validate_report. intros [->|Hle]; [done|].
    apply Z.leb_le in Hle. rewrite Hle. by rewrite orb_true_r.
  - unfold validate_report, find_markdown_section_text. intros e H.
    destruct (_ || _); [done|].
    destruct (re_compile_ignorecase _) as [rx|]; simpl in H.
    + by destruct (_ <? _)%Z.
    + by injection H as <-.
Qed.

(** X14: when the report check is active and the pattern compiles, the
    warning is appended exactly when the located section has fewer words
    than the minimum; a notebook without any matching markdown cell always
    gets the warning, with a count of zero words. *)
Theorem validate_report_active nb spec r rp pattern n rx :
  report spec = Some rp ->
  require_markdown_title_regex rp = Some pattern -> pattern <> "" ->
  min_words_in_report_cell rp = Some n -> (0 < n)%Z ->
  re_compile_ignorecase pattern = Some rx ->
  validate_report re_compile_ignorecase nb spec r =
    Ok (if (Z.of_nat (count_words
                        (strip (join blank_line (source <$> matching_cells rx nb))))
            <? n)%Z
        then add_warning
               (WReportShort
                  (count_words
                     (strip (join blank_line (source <$> matching_cells rx nb)))) n) r
        else r) /\
  (matching_cells rx nb = [] ->
   validate_report re_compile_ignorecase nb spec r
     = Ok (add_warning (WReportShort 0 n) r)).
Proof.
  intros Hrp Hpat Hne Hmin Hn Hrx.
  assert (Hv : validate_report re_compile_ignorecase nb spec r =
    Ok (if (Z.of_nat (count_words
                        (strip (join blank_line (source <$> matching_cells rx nb))))
            <? n)%Z
        then add_warning
               (WReportShort
                  (count_words
                     (strip (join blank_line (source <$> matching_cells rx nb)))) n) r
        else r)).
  { unfold validate_report, find_markdown_section_text.
    rewrite Hrp. simpl. rewrite Hpat, Hmin. simpl.
    apply String.eqb_neq in Hne. rewrite Hne.
    assert (Hpos : (n <=? 0)%Z = false) by (apply Z.leb_gt; lia).
    rewrite Hpos, Hrx. simpl. rewrite markdown_loop_spec. simpl app.
    by destruct (_ <? _)%Z. }
  split; [exact Hv|]. intros Hnil. rewrite Hv, Hnil.
  change (count_words (strip (join blank_line (source <$> [])))) with 0.
  change (Z.of_nat 0) with 0%Z.
  assert (Hlt : (0 <? n)%Z = true) by (apply Z.ltb_lt; lia).
  by rewrite Hlt.
Qed.

End ReportCheck.

Lemma validate_report_active_witness :
  validate_report re_compile_sample
    [markdown_cell "Mini reporte: el efecto es grande y positivo"; code_cell "x = 1"]
    report_only_spec (new_result sample_student sample_path "lab01")
  = Ok (new_result sample_student sample_path "lab01") /\
  validate_report re_compile_sample [code_cell "x = 1"] report_only_spec
    (new_result sample_student sample_path "lab01")
  = Ok (add_warning (WReportShort 0 5)
          (new_result sample_student sample_path "lab01")).
Proof.
  assert (H5 : (0 < 5)%Z) by reflexivity.
  assert (Hne : "Reporte" <> "") by discriminate.
  split.
  - exact (proj1 (validate_report_active re_compile_sample
                    [markdown_cell "Mini reporte: el efecto es grande y positivo";
                     code_cell "x = 1"]
                    report_only_spec (new_result sample_student sample_path "lab01")
                    (mkReport (Some "Reporte") (Some 5%Z)) "Reporte" 5%Z
                    (fun s => contains (lower "Reporte") (lower s))
                    eq_refl eq_refl Hne eq_refl H5 eq_refl)).
  - exact (proj2 (validate_report_active re_compile_sample [code_cell "x = 1"]
                    report_only_spec (new_result sample_student sample_path "lab01")
                    (mkReport (Some "Reporte") (Some 5%Z)) "Reporte" 5%Z
                    (fun s => contains (lower "Reporte") (lower s))
                    eq_refl eq_refl Hne eq_refl H5 eq_refl) eq_refl).
Defined.

Lemma validate_report_advisory_witness :
  validate_report (fun _ => None) [code_cell "x = 1"]
    (mkSpec None None None (Some (mkReport (Some "(") (Some 0%Z))))
    (new_result sample_student sample_path "lab01")
  = Ok (new_result sample_student sample_path "lab01").
Proof.
  refine (proj1 (proj2 (validate_report_advisory (fun _ => None) [code_cell "x = 1"]
                          (mkSpec None None None (Some (mkReport (Some "(") (Some 0%Z))))
                          (new_result sample_student sample_path "lab01"))) _).
  right. discriminate.
Defined.

(** ** One submission, and the batch *)

Section Grading.

Variable literal_eval : string -> option pyval.
Variable re_compile_ignorecase : string -> option (string -> bool).

Lemma grade_submission_identity lab_name spec st p nb r :
  grade_submission literal_eval re_compile_ignorecase lab_name spec st p nb = Ok r ->
  student r = st /\ path r = p /\ lab r = lab_name.
Proof.
  unfold grade_submission. intros H.
  destruct nb as [nb|]; [|by injection H as <-].
  destruct (lab_name =? "lab01"); [|by injection H as <-].
  destruct (validate_lab01 _ _ _) as [r1|] eqn:Hv; simpl in H; [|done].
  destruct (validate_report_frame _ _ _ _ _ H) as (-> & -> & -> & _).
  destruct (validate_lab01_frame _ _ _ _ Hv) as (-> & -> & -> & _). done.
Qed.

Lemma grade_submission_verdict lab_name spec st p nb r :
  grade_submission literal_eval re_compile_ignorecase lab_name spec st p nb = Ok r ->
  status r = FAIL <-> errors r <> [].
Proof.
  unfold grade_submission. intros H.
  destruct nb as [nb|]; [|by injection H as <-].
  destruct (lab_name =? "lab01"); [|by injection H as <-].
  destruct (validate_lab01 _ _ _) as [r1|] eqn:Hv; simpl in H; [|done].
  destruct (validate_report_frame _ _ _ _ _ H) as (_ & _ & _ & -> & _ & -> & _).
  eapply validate_lab01_verdict, Hv.
Qed.

(** X15: every result of grading one submission names the student, path
    and lab it was graded for. A notebook that cannot be read, and any lab
    other than [lab01], give a FAIL with score 0 and exactly one error
    without looking at the notebook's content. *)
Theorem grade_submission_outcomes lab_name spec st p :
  (forall nb r,
     grade_submission literal_eval re_compile_ignorecase lab_name spec st p nb = Ok r ->
     student r = st /\ path r = p /\ lab r = lab_name) /\
  grade_submission literal_eval re_compile_ignorecase lab_name spec st p None
    = Ok (mkGradeResult st p lab_name FAIL 0 [EUnreadable] []) /\
  (lab_name <> "lab01" ->
   forall nb,
     grade_submission literal_eval re_compile_ignorecase lab_name spec st p (Some nb)
       = Ok (mkGradeResult st p lab_name FAIL 0 [ENoValidator lab_name] [])).
Proof.
  split; [intros nb r; apply grade_submission_identity|]. split; [done|].
  intros Hne nb. unfold grade_submission.
  apply String.eqb_neq in Hne. by rewrite Hne.
Qed.

Variable read_notebook : string -> option notebook.
Variable get_student_from_path : string -> string.

Lemma main_loop_inv lab_name spec nb_paths : forall results any_fail out flag,
  main_loop literal_eval re_compile_ignorecase read_notebook get_student_from_path
    lab_name spec nb_paths results any_fail = Ok (out, flag) ->
  exists new,
    out = results ++ new /\
    map path new = nb_paths /\
    (flag = true <-> any_fail = true \/ exists r, r ∈ new /\ status r = FAIL) /\
    Forall (fun r => lab r = lab_name /\ (status r = FAIL <-> errors r <> [])) new.
Proof.
  induction nb_paths as [|nb_path rest IH]; intros results any_fail out flag; simpl.
  - intros [= <- <-]. exists []. rewrite app_nil_r. repeat split; [tauto| |done].
    intros [|(r & Hr & _)]; [done|]. by apply elem_of_nil in Hr.
  - destruct (grade_submission _ _ _ _ _ _ _) as [gr|] eqn:Hg; simpl; [|done].
    intros H. destruct (IH _ _ _ _ H) as (new & -> & Hpaths & Hflag & Hall).
    destruct (grade_submission_identity _ _ _ _ _ _ Hg) as (_ & Hp & Hl).
    pose proof (grade_submission_verdict _ _ _ _ _ _ Hg) as Hv.
    exists (gr :: new). rewrite <- app_assoc. split; [done|].
    split; [simpl; by rewrite Hp, Hpaths|]. split; [|by constructor].
    rewrite Hflag. split.
    + intros [Hf|(r & Hr & Hs)].
      * destruct (status gr) eqn:Hs; simpl in Hf; [by left|].
        right. exists gr. split; [apply list_elem_of_here|done].
      * right. exists r. split; [by right|done].
    + intros [->|(r & Hr & Hs)].
      * left. by destruct (is_fail (status gr)).
      * apply elem_of_cons in Hr as [->|Hr].
        -- left. by rewrite Hs.
        -- right. eauto.
Qed.

(** X16: when the batch loop of [main] returns, it has produced one result
    per path, in the order of the paths, each for the lab being graded; the
    failure flag that decides the exit status is set exactly when some
    result has status FAIL, that is, when some result holds an error. *)
Theorem main_loop_results lab_name spec nb_paths out flag :
  main_loop literal_eval re_compile_ignorecase read_notebook get_student_from_path
    lab_name spec nb_paths [] false = Ok (out, flag) ->
  map path out = nb_paths /\
  Forall (fun r => lab r = lab_name) out /\
  (flag = true <-> exists r, r ∈ out /\ status r = FAIL) /\
  (flag = true <-> exists r, r ∈ out /\ errors r <> []).
Proof.
  intros H. destruct (main_loop_inv _ _ _ _ _ _ _ H) as (new & -> & Hp & Hf & Hall).
  simpl. split; [done|]. split; [eapply Forall_impl; [exact Hall|]; by intros r []|].
  assert (Hflag : flag = true <-> exists r, r ∈ new /\ status r = FAIL).
  { rewrite Hf. split; [intros [|]; done|by right]. }
  split; [exact Hflag|]. rewrite Hflag.
  rewrite Forall_forall in Hall.
  split; intros (r & Hr & Hs); exists r; (split; [done|]);
    destruct (Hall r Hr) as [_ Hiff]; by apply Hiff.
Qed.

End Grading.

Lemma grade_submission_outcomes_witness :
  grade_submission literal_eval_sample re_compile_sample "lab02" report_only_spec
    sample_student sample_path (Some [code_cell "LAB_SUMMARY = {}"])
  = Ok (mkGradeResult sample_student sample_path "lab02" FAIL 0
          [ENoValidator "lab02"] []).
Proof.
  refine (proj2 (proj2 (grade_submission_outcomes literal_eval_sample
                          re_compile_sample "lab02" report_only_spec
                          sample_student sample_path)) _ _).
  discriminate.
Defined.

Lemma main_loop_results_witness :
  map path
    [mkGradeResult "Perez" "Perez/lab01.ipynb" "lab01" PASS (score_of_warnings 0)
       [] [WReportShort 0 5];
     mkGradeResult "Soto" "Soto/lab01.ipynb" "lab01" FAIL 0 [EUnreadable] []]
  = ["Perez/lab01.ipynb"; "Soto/lab01.ipynb"] /\
  (true = true <->
   exists r,
     r ∈ [mkGradeResult "Perez" "Perez/lab01.ipynb" "lab01" PASS
            (score_of_warnings 0) [] [WReportShort 0 5];
          mkGradeResult "Soto" "Soto/lab01.ipynb" "lab01" FAIL 0 [EUnreadable] []]
     /\ status r = FAIL).
Proof.
  pose proof (main_loop_results literal_eval_sample re_compile_sample
                (fun p => if p =? "Perez/lab01.ipynb"
                          then Some [code_cell "LAB_SUMMARY = {}"] else None)
                (fun p => take_str (String.length p - 12) p)
                "lab01" report_only_spec
                ["Perez/lab01.ipynb"; "Soto/lab01.ipynb"]
                [mkGradeResult "Perez" "Perez/lab01.ipynb" "lab01" PASS
                   (score_of_warnings 0) [] [WReportShort 0 5];
                 mkGradeResult "Soto" "Soto/lab01.ipynb" "lab01" FAIL 0
                   [EUnreadable] []]
                true eq_refl) as (Hp & _ & Hf & _).
  split; [exact Hp|exact Hf].
Defined.

(** ** The range of the score *)

Lemma score_of_warnings_range w :
  (0.7 <= score_of_warnings w)%Q /\ (score_of_warnings w <= 1)%Q.
Proof.
  unfold score_of_warnings, py_max.
  destruct (Qle_bool _ _) eqn:Hle; [split; discriminate|].
  split.
  - destruct (Qlt_le_dec (1.0 - 0.05 * inject_Z (Z.of_nat w)) 0.7) as [Hlt|Hge];
      [|exact Hge].
    apply Qlt_le_weak, Qle_bool_iff in Hlt. congruence.
  - unfold Qle. simpl. lia.
Qed.

Lemma validate_lab01_score summary spec r0 r :
  validate_lab01 summary spec r0 = Ok r ->
  (status r = FAIL /\ score r = 0%Q) \/
  (status r = PASS /\ exists w, score r = score_of_warnings w).
Proof.
  unfold validate_lab01. intros H. destruct summary; try done.
  - injection H as <-. by left.
  - destruct (has_parse_error d); [injection H as <-; by left|].
    destruct (structural_checks d spec r0) as [r1|]; simpl in H; [|done].
    injection H as <-. unfold final_verdict.
    destruct (errors r1); [right|left]; simpl; eauto.
Qed.

(** X17: the score of every result of grading one submission lies between
    0 and 1; a FAIL has score 0 and a PASS has a score of at least 0.7. *)
Theorem grade_submission_score_range literal_eval re_compile lab_name spec st p nb r :
  grade_submission literal_eval re_compile lab_name spec st p nb = Ok r ->
  (0 <= score r)%Q /\ (score r <= 1)%Q /\
  (status r = FAIL -> score r = 0%Q) /\
  (status r = PASS -> (0.7 <= score r)%Q).
Proof.
  unfold grade_submission. intros H.
  destruct nb as [nb|]; [|injection H as <-; by repeat split].
  destruct (lab_name =? "lab01"); [|injection H as <-; by repeat split].
  destruct (validate_lab01 _ _ _) as [r1|] eqn:Hv; simpl in H; [|done].
  destruct (validate_report_frame _ _ _ _ _ H) as (_ & _ & _ & -> & -> & _).
  destruct (validate_lab01_score _ _ _ _ Hv) as [[-> ->]|(-> & w & ->)].
  - by repeat split.
  - destruct (score_of_warnings_range w) as [Hlo Hhi].
    repeat split; [|exact Hhi|done|by intros _].
    eapply Qle_trans; [|exact Hlo]. discriminate.
Qed.

Lemma grade_submission_score_range_witness :
  (0 <= score_of_warnings 0)%Q /\ (score_of_warnings 0 <= 1)%Q /\
  (PASS = FAIL -> score_of_warnings 0 = 0%Q) /\
  (PASS = PASS -> (0.7 <= score_of_warnings 0)%Q).
Proof.
  exact (grade_submission_score_range literal_eval_sample re_compile_sample "lab01"
           report_only_spec sample_student sample_path
           (Some [code_cell "LAB_SUMMARY = {}"])
           (mkGradeResult sample_student sample_path "lab01" PASS
              (score_of_warnings 0) [] [WReportShort 0 5])
           eq_refl).
Defined.
